(** * The syscall layer of the kernel (kern/syscall.c) and the user-level
      IPC wrapper (lib/ipc.c), as a shallow embedding.

    The kernel state is threaded explicitly: every handler takes the state
    the trap found and returns the value handed back to the dispatcher together
    with the state it leaves.  Addresses, permission words and page-table
    entries are 32-bit machine words, kept as [Z] with the C bit operations
    written with [Z.land] / [Z.lor]; the environment table and the page
    tables are finite maps. *)

From stdpp Require Import base gmap list.
From Stdlib Require Import ZArith Lia.

Local Open Scope Z_scope.

(** ** Constants of inc/mmu.h, inc/memlayout.h and inc/error.h *)

Module Mmu.

(** Modelled from the spec: inc/mmu.h and inc/memlayout.h are not among the
    sources.  The permission bits {present, writable, user} are the three low
    bits of an x86 page-table entry, a page is 4096 bytes, one page table
    spans 1024 pages, and [UTOP] is the fixed user/kernel split, which is
    page-aligned. *)
Definition PGSIZE : Z := 4096.
Definition NPTENTRIES : Z := 1024.
Definition PTE_P : Z := 1.
Definition PTE_W : Z := 2.
Definition PTE_U : Z := 4.
Definition UTOP : Z := 0xeec00000.

(** Virtual page number and page-directory index of an address. *)
Definition VPN (va : Z) : Z := va / PGSIZE.
Definition PDX (va : Z) : Z := va / (PGSIZE * NPTENTRIES).

End Mmu.

Module Errno.

(** Modelled from the spec: inc/error.h is not among the sources.  The error
    codes form a closed enumeration; a handler that executes
    [return -E_X;] is embedded as returning [Err E_X]. *)
Inductive errno : Type :=
| E_BAD_ENV
| E_INVAL
| E_NO_MEM
| E_NO_FREE_ENV
| E_IPC_NOT_RECV
| E_RETRY.

#[global] Instance errno_eq_dec : EqDecision errno.
Proof. solve_decision. Defined.

(** The signed result word of a handler: a non-negative payload or a
    negated error code. *)
Inductive retval : Type :=
| Ok (v : Z)
| Err (e : errno).

#[global] Instance retval_eq_dec : EqDecision retval.
Proof. solve_decision. Defined.

(** [0 != r] in C. *)
Definition nonzero (r : retval) : bool := negb (bool_decide (r = Ok 0)).

(** [r < 0] in C. *)
Definition negative (r : retval) : bool :=
  match r with
  | Ok v => v <? 0
  | Err _ => true
  end.

End Errno.

Export Mmu Errno.

(** ** Physical frames and page tables (kern/pmap.c) *)

Module Pmap.

(** Modelled from the spec: kern/pmap.c is not among the sources.  A frame is
    named by its physical page number.  The allocator keeps a free list and a
    reference count per frame; [page_alloc] takes a frame off the free list
    without touching its count, [page_free] puts one back, [page_decref]
    drops one reference and frees the frame when the count reaches zero. *)
Record PhysMem : Type := mkPhysMem {
  page_free_list : list Z;
  pp_ref : gmap Z nat
}.

Definition ref_of (pm : PhysMem) (pp : Z) : nat := default 0%nat (pp_ref pm !! pp).

Definition page_alloc (pm : PhysMem) : option (Z * PhysMem) :=
  match page_free_list pm with
  | [] => None
  | pp :: rest => Some (pp, mkPhysMem rest (pp_ref pm))
  end.

Definition page_free (pm : PhysMem) (pp : Z) : PhysMem :=
  mkPhysMem (pp :: page_free_list pm) (pp_ref pm).

Definition page_incref (pm : PhysMem) (pp : Z) : PhysMem :=
  mkPhysMem (page_free_list pm) (<[pp := S (ref_of pm pp)]> (pp_ref pm)).

Definition page_decref (pm : PhysMem) (pp : Z) : PhysMem :=
  let n := Nat.pred (ref_of pm pp) in
  let pm' := mkPhysMem (page_free_list pm) (<[pp := n]> (pp_ref pm)) in
  if (n =? 0)%nat then page_free pm' pp else pm'.

(** Modelled from the spec: an address space is the two-level table the
    page-table walker maintains.  [pd_tables] records, per page-directory
    index, the frame that backs the page table; [pt_entries] holds the
    page-table entries by virtual page number.  An entry is the word
    [page2pa(pp) | perm | PTE_P]; an entry that was never written reads as
    absent. *)
Record AddrSpace : Type := mkAddrSpace {
  pd_tables : gmap Z Z;
  pt_entries : gmap Z Z
}.

Definition page2pa (pp : Z) : Z := pp * PGSIZE.
Definition pa2page (pa : Z) : Z := pa / PGSIZE.

(** [pgdir_walk(pgdir, va, 0)] followed by a read of the entry. *)
Definition pte_at (pgdir : AddrSpace) (va : Z) : option Z :=
  pt_entries pgdir !! VPN va.

(** [page_lookup(pgdir, va, &pte)]: the frame mapped at [va] and the entry
    that maps it; [None] stands for the NULL result. *)
Definition page_lookup (pgdir : AddrSpace) (va : Z) : option (Z * Z) :=
  match pte_at pgdir va with
  | Some pte =>
      if Z.land pte PTE_P =? 0 then None else Some (pa2page pte, pte)
  | None => None
  end.

(** [*pte = v] through the pointer [page_lookup] stored. *)
Definition pte_store (pgdir : AddrSpace) (va v : Z) : AddrSpace :=
  mkAddrSpace (pd_tables pgdir) (<[VPN va := v]> (pt_entries pgdir)).

(** [pgdir_walk(pgdir, va, 1)]: the page table for [va] is allocated when it
    is missing; this allocation is the only way an insertion can fail. *)
Definition pgdir_walk_create (pm : PhysMem) (pgdir : AddrSpace) (va : Z)
  : option (PhysMem * AddrSpace) :=
  match pd_tables pgdir !! PDX va with
  | Some _ => Some (pm, pgdir)
  | None =>
      match page_alloc pm with
      | None => None
      | Some (pt, pm') =>
          Some (page_incref pm' pt,
                mkAddrSpace (<[PDX va := pt]> (pd_tables pgdir)) (pt_entries pgdir))
      end
  end.

(** [page_remove(pgdir, va)]. *)
Definition page_remove (pm : PhysMem) (pgdir : AddrSpace) (va : Z)
  : PhysMem * AddrSpace :=
  match page_lookup pgdir va with
  | None => (pm, pgdir)
  | Some (pp, _) => (page_decref pm pp, pte_store pgdir va 0)
  end.

(** [page_insert(pgdir, pp, va, perm)]: maps [pp] at [va]; a page already
    mapped there is removed first.  Fails with out-of-memory, changing
    nothing, when the page table could not be allocated. *)
Definition page_insert (pm : PhysMem) (pgdir : AddrSpace) (pp va perm : Z)
  : retval * PhysMem * AddrSpace :=
  match pgdir_walk_create pm pgdir va with
  | None => (Err E_NO_MEM, pm, pgdir)
  | Some (pm1, pgdir1) =>
      let pm2 := page_incref pm1 pp in
      let '(pm3, pgdir3) := page_remove pm2 pgdir1 va in
      (Ok 0, pm3, pte_store pgdir3 va (Z.lor (Z.lor (page2pa pp) perm) PTE_P))
  end.

(** Modelled from the spec: [user_mem_check(pgdir, va, len, perm)] holds when
    every page that overlaps the region [va, va+len) is mapped with all the
    bits of [perm]; an empty region overlaps no page. *)
Definition page_allows (pgdir : AddrSpace) (perm vpn : Z) : bool :=
  match pt_entries pgdir !! vpn with
  | Some pte => Z.land pte perm =? perm
  | None => false
  end.

Definition user_mem_check (pgdir : AddrSpace) (va len perm : Z) : bool :=
  if len <=? 0 then true
  else forallb (page_allows pgdir perm)
               (seqZ (VPN va) (VPN (va + len - 1) - VPN va + 1)).

End Pmap.

Export Pmap.

(** ** Environments (kern/env.c) *)

Module KernEnv.

(** Modelled from the spec: inc/env.h is not among the sources.  The data
    model lists four statuses; every one of them can be passed as the
    [status] word of [sys_env_set_status]. *)
Inductive EnvStatus : Type :=
| ENV_FREE
| ENV_RUNNABLE
| ENV_NOT_RUNNABLE
| ENV_DYING.

#[global] Instance EnvStatus_eq_dec : EqDecision EnvStatus.
Proof. solve_decision. Defined.

(** Modelled from the spec: inc/trap.h is not among the sources.  The saved
    context is the register named as the return value of a system call,
    [tf_regs.reg_eax], and the remaining registers in their saved order. *)
Record Trapframe : Type := mkTrapframe {
  reg_eax : Z;
  tf_others : list Z
}.

(** [sizeof(struct Trapframe)]: seventeen saved words. *)
Definition SIZEOF_TRAPFRAME : Z := 68.

(** The fields of [struct Env] the handlers read or write.  The handle
    [env_id] of a record is the key it is stored under in the table. *)
Record Env : Type := mkEnv {
  env_parent_id : Z;
  env_status : EnvStatus;
  env_tf : Trapframe;
  env_pgdir : AddrSpace;
  env_pgfault_upcall : Z;
  env_ipc_recving : bool;
  env_ipc_dstva : Z;
  env_ipc_value : Z;
  env_ipc_from : Z;
  env_ipc_perm : Z
}.

(** Field assignments [e->field = v]. *)
Definition set_env_status (s : EnvStatus) (e : Env) : Env :=
  mkEnv (env_parent_id e) s (env_tf e) (env_pgdir e) (env_pgfault_upcall e)
        (env_ipc_recving e) (env_ipc_dstva e) (env_ipc_value e)
        (env_ipc_from e) (env_ipc_perm e).

Definition set_env_tf (tf : Trapframe) (e : Env) : Env :=
  mkEnv (env_parent_id e) (env_status e) tf (env_pgdir e) (env_pgfault_upcall e)
        (env_ipc_recving e) (env_ipc_dstva e) (env_ipc_value e)
        (env_ipc_from e) (env_ipc_perm e).

Definition set_env_pgdir (pgdir : AddrSpace) (e : Env) : Env :=
  mkEnv (env_parent_id e) (env_status e) (env_tf e) pgdir (env_pgfault_upcall e)
        (env_ipc_recving e) (env_ipc_dstva e) (env_ipc_value e)
        (env_ipc_from e) (env_ipc_perm e).

Definition set_env_ipc_recving (b : bool) (e : Env) : Env :=
  mkEnv (env_parent_id e) (env_status e) (env_tf e) (env_pgdir e)
        (env_pgfault_upcall e) b (env_ipc_dstva e) (env_ipc_value e)
        (env_ipc_from e) (env_ipc_perm e).

Definition set_env_ipc_dstva (va : Z) (e : Env) : Env :=
  mkEnv (env_parent_id e) (env_status e) (env_tf e) (env_pgdir e)
        (env_pgfault_upcall e) (env_ipc_recving e) va (env_ipc_value e)
        (env_ipc_from e) (env_ipc_perm e).

Definition set_env_ipc_value (v : Z) (e : Env) : Env :=
  mkEnv (env_parent_id e) (env_status e) (env_tf e) (env_pgdir e)
        (env_pgfault_upcall e) (env_ipc_recving e) (env_ipc_dstva e) v
        (env_ipc_from e) (env_ipc_perm e).

Definition set_env_ipc_from (from : Z) (e : Env) : Env :=
  mkEnv (env_parent_id e) (env_status e) (env_tf e) (env_pgdir e)
        (env_pgfault_upcall e) (env_ipc_recving e) (env_ipc_dstva e)
        (env_ipc_value e) from (env_ipc_perm e).

Definition set_env_ipc_perm (perm : Z) (e : Env) : Env :=
  mkEnv (env_parent_id e) (env_status e) (env_tf e) (env_pgdir e)
        (env_pgfault_upcall e) (env_ipc_recving e) (env_ipc_dstva e)
        (env_ipc_value e) (env_ipc_from e) perm.

(** [e->env_tf.tf_regs.reg_eax = v]. *)
Definition set_reg_eax (v : Z) (e : Env) : Env :=
  set_env_tf (mkTrapframe v (tf_others (env_tf e))) e.

(** The kernel state a handler runs on: the environment table, the handle of
    the running environment ([curenv]) and the frame allocator. *)
Record KState : Type := mkKState {
  envs : gmap Z Env;
  curenv : Z;
  phys : PhysMem
}.

(** A store through an [struct Env *] obtained for handle [id]. *)
Definition update_env (st : KState) (id : Z) (f : Env -> Env) : KState :=
  mkKState (alter f id (envs st)) (curenv st) (phys st).

Definition set_phys (st : KState) (pm : PhysMem) : KState :=
  mkKState (envs st) (curenv st) pm.

(** [curenv->env_pgdir]; the running environment is live during a system
    call, an absent record reads as an empty address space. *)
Definition cur_pgdir (st : KState) : AddrSpace :=
  match envs st !! curenv st with
  | Some e => env_pgdir e
  | None => mkAddrSpace ∅ ∅
  end.

(** Modelled from the spec: [envid2env] (kern/env.c) is not among the
    sources.  A handle resolves to a live record or the lookup fails, a FREE
    slot being indistinguishable from an absent one; with [checkperm] the
    caller must be the target itself or an ancestor of it. *)
Fixpoint is_descendant (fuel : nat) (tbl : gmap Z Env) (anc id : Z) : bool :=
  match fuel with
  | O => false
  | S fuel' =>
      match tbl !! id with
      | None => false
      | Some e =>
          (env_parent_id e =? anc) || is_descendant fuel' tbl anc (env_parent_id e)
      end
  end.

Definition envid2env (st : KState) (envid : Z) (checkperm : bool) : option Env :=
  match envs st !! envid with
  | None => None
  | Some e =>
      if bool_decide (env_status e = ENV_FREE) then None
      else if checkperm
                && negb ((envid =? curenv st)
                         || is_descendant (size (envs st)) (envs st) (curenv st) envid)
      then None
      else Some e
  end.

End KernEnv.

Export KernEnv.

(** ** The handlers of kern/syscall.c *)

Module Syscall.

(** How a handler can leave the kernel path.  [Returns r st]: the handler
    returns [r] to the dispatcher.  [Destroyed id st]: [user_mem_assert] found
    the region unreadable and destroyed environment [id].  [Yielded st]:
    [sched_yield] was entered, which does not return. *)
Inductive outcome : Type :=
| Returns (r : retval) (st : KState)
| Destroyed (victim : Z) (st : KState)
| Yielded (st : KState).

(** Modelled from the spec: [sched_yield] (kern/sched.c) is not among the
    sources; it hands the processor to the scheduler and never returns. *)
Definition sched_yield (st : KState) : outcome := Yielded st.

(** Modelled from the spec: [user_mem_assert(env, va, len, perm)]
    (kern/pmap.c) is not among the sources.  It checks the region in the
    address space of the environment it is given, with [PTE_U] added to
    [perm], and destroys that environment when the check fails; [None]
    stands for a passed check. *)
Definition user_mem_assert (id : Z) (env : Env) (va len perm : Z) : option Z :=
  if user_mem_check (env_pgdir env) va len (Z.lor perm PTE_U) then None
  else Some id.

(** [sys_yield]. *)
Definition sys_yield (st : KState) : outcome := sched_yield st.

(** [sys_env_set_status(envid, status)]. *)
Definition sys_env_set_status (st : KState) (envid : Z) (status : EnvStatus)
  : retval * KState :=
  match envid2env st envid true with
  | None => (Err E_BAD_ENV, st)
  | Some env =>
      if bool_decide (ENV_RUNNABLE ≠ env_status env)
         && bool_decide (ENV_NOT_RUNNABLE ≠ env_status env)
      then (Err E_INVAL, st)
      else (Ok 0, update_env st envid (set_env_status status))
  end.

(** [sys_env_set_trapframe(envid, tf)].  [tfv] is the value the kernel reads
    through the pointer [tf] when it executes [env->env_tf = *tf]. *)
Definition sys_env_set_trapframe (st : KState) (envid tf : Z) (tfv : Trapframe)
  : outcome :=
  match envid2env st envid true with
  | None => Returns (Err E_BAD_ENV) st
  | Some env =>
      match user_mem_assert envid env tf 0 PTE_P with
      | Some victim => Destroyed victim st
      | None => Returns (Ok 0) (update_env st envid (set_env_tf tfv))
      end
  end.

(** [sys_page_alloc(envid, va, perm)].  The contents of frames are not
    modelled, so the [memset] leaves no trace. *)
Definition sys_page_alloc (st : KState) (envid va perm : Z) : retval * KState :=
  if (UTOP <? va) || negb (0 =? va mod PGSIZE) then (Err E_INVAL, st)
  else
    match envid2env st envid true with
    | None => (Err E_BAD_ENV, st)
    | Some env =>
        if negb (Z.lor PTE_U PTE_P =? Z.land (Z.lor PTE_U PTE_P) perm)
        then (Err E_INVAL, st)
        else
          match page_alloc (phys st) with
          | None => (Err E_NO_MEM, st)
          | Some (pag, pm) =>
              let '(r, pm', pgdir') := page_insert pm (env_pgdir env) pag va perm in
              let st' := update_env (set_phys st pm') envid (set_env_pgdir pgdir') in
              if nonzero r then (Err E_NO_MEM, st') else (Ok 0, st')
          end
    end.

(** [sys_page_map(srcenvid, srcva, dstenvid, dstva, perm)]. *)
Definition sys_page_map (st : KState) (srcenvid srcva dstenvid dstva perm : Z)
  : retval * KState :=
  match envid2env st srcenvid true, envid2env st dstenvid true with
  | Some srcenv, Some dstenv =>
      if (UTOP <? srcva) || negb (srcva mod PGSIZE =? 0)
         || (UTOP <? dstva) || negb (dstva mod PGSIZE =? 0)
      then (Err E_INVAL, st)
      else
        match page_lookup (env_pgdir srcenv) srcva with
        | None => (Err E_INVAL, st)
        | Some (pag, pte) =>
            if negb (Z.lor PTE_P PTE_U =? Z.land (Z.lor PTE_U PTE_P) pte)
            then (Err E_INVAL, st)
            else if (PTE_W =? Z.land PTE_W perm) && negb (PTE_W =? Z.land PTE_W pte)
            then (Err E_INVAL, st)
            else
              let '(r, pm', pgdir') :=
                page_insert (phys st) (env_pgdir dstenv) pag dstva perm in
              let st' := update_env (set_phys st pm') dstenvid (set_env_pgdir pgdir') in
              if nonzero r then (Err E_NO_MEM, st') else (Ok 0, st')
        end
  | _, _ => (Err E_BAD_ENV, st)
  end.

(** [sys_page_unmap(envid, va)]. *)
Definition sys_page_unmap (st : KState) (envid va : Z) : retval * KState :=
  if (UTOP <? va) || negb (va mod PGSIZE =? 0) then (Err E_INVAL, st)
  else
    match envid2env st envid true with
    | None => (Err E_BAD_ENV, st)
    | Some env =>
        match page_lookup (env_pgdir env) va with
        | Some (pag, pte) =>
            if pte =? 0 then (Ok 0, st)
            else
              (Ok 0, update_env (set_phys st (page_decref (phys st) pag)) envid
                                (set_env_pgdir (pte_store (env_pgdir env) va 0)))
        | None => (Ok 0, st)
        end
    end.

(** The tail of [sys_ipc_try_send]: the stores that hand the message over
    and wake the receiver, after [env_ipc_perm] was set to [p]. *)
Definition ipc_deliver (sender value p : Z) (e : Env) : Env :=
  set_env_status ENV_RUNNABLE
    (set_reg_eax 0
       (set_env_ipc_from sender
          (set_env_ipc_recving false
             (set_env_ipc_value value
                (set_env_ipc_perm p e))))).

(** [sys_ipc_try_send(envid, value, srcva, perm)]. *)
Definition sys_ipc_try_send (st : KState) (envid value srcva perm : Z)
  : retval * KState :=
  match envid2env st envid false with
  | None => (Err E_BAD_ENV, st)
  | Some dstenv =>
      if bool_decide (ENV_NOT_RUNNABLE ≠ env_status dstenv)
         || negb (env_ipc_recving dstenv)
      then (Err E_IPC_NOT_RECV, st)
      else if (srcva <? UTOP) && (env_ipc_dstva dstenv <? UTOP) then
        if negb (0 =? srcva mod PGSIZE) then (Err E_INVAL, st)
        else
          match page_lookup (cur_pgdir st) srcva with
          | None => (Err E_INVAL, st)
          | Some (pag, pte) =>
              if 0 =? pte then (Err E_INVAL, st)
              else if negb (Z.lor PTE_U PTE_P =? Z.land (Z.lor PTE_U PTE_P) pte)
              then (Err E_INVAL, st)
              else if (PTE_W =? Z.land perm PTE_W) && negb (PTE_W =? Z.land PTE_W pte)
              then (Err E_INVAL, st)
              else
                let '(r, pm', pgdir') :=
                  page_insert (phys st) (env_pgdir dstenv) pag
                              (env_ipc_dstva dstenv) perm in
                let st' := update_env (set_phys st pm') envid (set_env_pgdir pgdir') in
                if nonzero r then (Err E_NO_MEM, st')
                else (Ok 0, update_env st' envid (ipc_deliver (curenv st) value perm))
          end
      else (Ok 0, update_env st envid (ipc_deliver (curenv st) value 0))
  end.

(** [sys_ipc_recv(dstva)].  Both exits of the C function are [return]
    statements: it hands a value back to the dispatcher on every path. *)
Definition sys_ipc_recv (st : KState) (dstva : Z) : outcome :=
  if dstva <? UTOP then
    if negb (0 =? dstva mod PGSIZE) then Returns (Err E_INVAL) st
    else
      Returns (Ok 0)
        (update_env st (curenv st)
           (fun e => set_env_status ENV_NOT_RUNNABLE
                       (set_env_ipc_recving true (set_env_ipc_dstva dstva e))))
  else
    Returns (Ok 0)
      (update_env st (curenv st)
         (fun e => set_env_status ENV_NOT_RUNNABLE
                     (set_env_ipc_recving true (set_env_ipc_dstva UTOP e)))).

End Syscall.

Export Syscall.

(** ** The user-level wrapper of lib/ipc.c *)

Module Lib.

(** What the library routine does, seen from outside: the system calls it
    issues, in order. *)
Inductive lib_call : Type :=
| Call_sys_ipc_try_send (to_env val pg perm : Z)
| Call_sys_yield
| Call_panic.

(** How a run of the routine ends: it returned to its caller, it panicked,
    or it is still inside its loop when the observed answers run out. *)
Inductive lib_exit : Type :=
| Returned
| Panicked
| Retrying.

#[global] Instance lib_exit_eq_dec : EqDecision lib_exit.
Proof. solve_decision. Defined.

(** The [while] loop of [ipc_send]; [answers] are the results the kernel
    gives to the successive [sys_ipc_try_send] calls, one per iteration. *)
Fixpoint ipc_send_loop (to_env val pg perm : Z) (answers : list retval)
  : list lib_call * lib_exit :=
  match answers with
  | [] => ([], Retrying)
  | r :: rest =>
      if nonzero r then
        let '(calls, e) := ipc_send_loop to_env val pg perm rest in
        (Call_sys_ipc_try_send to_env val pg perm :: Call_sys_yield :: calls, e)
      else ([Call_sys_ipc_try_send to_env val pg perm], Returned)
  end.

(** [ipc_send(to_env, val, pg, perm)]; [NULL] is the zero pointer. *)
Definition ipc_send (to_env val pg perm : Z) (answers : list retval)
  : list lib_call * lib_exit :=
  let pg := if 0 =? pg then UTOP else pg in
  ipc_send_loop to_env val pg perm answers.

End Lib.

Export Lib.

(** ** Observations the statements are phrased with *)

Module Obs.

(** The permission word asks for write access. *)
Definition wants_write (perm : Z) : bool := PTE_W =? Z.land PTE_W perm.

(** The page mapped at [va] carries write permission; an address with no
    page mapped is not writable. *)
Definition writable_at (pgdir : AddrSpace) (va : Z) : bool :=
  match page_lookup pgdir va with
  | Some (_, pte) => PTE_W =? Z.land PTE_W pte
  | None => false
  end.

(** The part of an environment record a sender can change: the IPC fields,
    the status and the saved context. *)
Record IpcView : Type := mkIpcView {
  v_recving : bool;
  v_dstva : Z;
  v_value : Z;
  v_from : Z;
  v_perm : Z;
  v_status : EnvStatus;
  v_tf : Trapframe
}.

Definition ipc_view (e : Env) : IpcView :=
  mkIpcView (env_ipc_recving e) (env_ipc_dstva e) (env_ipc_value e)
            (env_ipc_from e) (env_ipc_perm e) (env_status e) (env_tf e).

(** The receiver is blocked in [sys_ipc_recv]. *)
Definition waiting (e : Env) : Prop :=
  env_status e = ENV_NOT_RUNNABLE /\ env_ipc_recving e = true.

(** The send takes the page-transfer branch: the sender offers a page and
    the receiver asked for one. *)
Definition transfers_page (srcva : Z) (dstenv : Env) : bool :=
  (srcva <? UTOP) && (env_ipc_dstva dstenv <? UTOP).

(** The record a receiver is left with once its request is recorded: the
    destination normalised to the sentinel when no page is asked for. *)
Definition recv_record (dstva : Z) (e : Env) : Env :=
  set_env_status ENV_NOT_RUNNABLE
    (set_env_ipc_recving true
       (set_env_ipc_dstva (if dstva <? UTOP then dstva else UTOP) e)).

End Obs.

Export Obs.

(** ** Concrete kernel states used to exercise the handlers *)

Module Examples.

(** Environment 1 is running; environment 2 is its child. *)
Definition tf0 : Trapframe := mkTrapframe 7 [1; 2; 3].

(** The parent maps frame 5 read-only at 0x400000 and frame 6 writable at
    0x401000; the page table for that region sits in frame 7. *)
Definition parent_pgdir : AddrSpace :=
  mkAddrSpace {[ PDX 0x400000 := 7 ]}
              (<[ VPN 0x400000 := Z.lor (page2pa 5) (Z.lor PTE_P PTE_U) ]>
                 {[ VPN 0x401000 := Z.lor (page2pa 6) (Z.lor PTE_P (Z.lor PTE_U PTE_W)) ]}).

Definition empty_pgdir : AddrSpace := mkAddrSpace ∅ ∅.

Definition parent_env : Env :=
  mkEnv 0 ENV_RUNNABLE tf0 parent_pgdir 0 false 0 0 0 0.

(** A child blocked in receive, asking for a page at 0x800000. *)
Definition waiting_child : Env :=
  mkEnv 1 ENV_NOT_RUNNABLE tf0 empty_pgdir 0 true 0x800000 0 0 0.

(** A child blocked in receive that asked for no page. *)
Definition waiting_child_nopage : Env :=
  mkEnv 1 ENV_NOT_RUNNABLE tf0 empty_pgdir 0 true UTOP 0 0 0.

(** A child that is not waiting. *)
Definition idle_child : Env :=
  mkEnv 1 ENV_RUNNABLE tf0 empty_pgdir 0 false 0 0 0 0.

Definition some_phys : PhysMem :=
  mkPhysMem [10; 11; 12] (<[5 := 1%nat]> (<[6 := 1%nat]> {[ 7 := 1%nat ]})).

(** One free frame is all that is left. *)
Definition tight_phys : PhysMem :=
  mkPhysMem [10] (<[5 := 1%nat]> (<[6 := 1%nat]> {[ 7 := 1%nat ]})).

Definition st_waiting : KState :=
  mkKState (<[1 := parent_env]> {[ 2 := waiting_child ]}) 1 some_phys.

Definition st_waiting_nopage : KState :=
  mkKState (<[1 := parent_env]> {[ 2 := waiting_child_nopage ]}) 1 some_phys.

Definition st_idle : KState :=
  mkKState (<[1 := parent_env]> {[ 2 := idle_child ]}) 1 some_phys.

Definition st_tight : KState :=
  mkKState (<[1 := parent_env]> {[ 2 := idle_child ]}) 1 tight_phys.

(** A child that is being torn down. *)
Definition dying_child : Env :=
  mkEnv 1 ENV_DYING tf0 empty_pgdir 0 false 0 0 0 0.

Definition st_dying : KState :=
  mkKState (<[1 := parent_env]> {[ 2 := dying_child ]}) 1 some_phys.

(** The parent's address space with one kernel page on top: frame 256 is
    mapped at 0xf0100000 present and writable, but not user-accessible. *)
Definition parent_pgdir_k : AddrSpace :=
  mkAddrSpace (<[ PDX 0xf0100000 := 8 ]> (pd_tables parent_pgdir))
              (<[ VPN 0xf0100000 := Z.lor (page2pa 256) (Z.lor PTE_P PTE_W) ]>
                 (pt_entries parent_pgdir)).

Definition parent_env_k : Env :=
  mkEnv 0 ENV_RUNNABLE tf0 parent_pgdir_k 0 false 0 0 0 0.

Definition st_kernel_page : KState :=
  mkKState (<[1 := parent_env_k]> {[ 2 := idle_child ]}) 1 some_phys.

(** A saved context a caller could ask to install. *)
Definition tf1 : Trapframe := mkTrapframe 99 [4; 5; 6].

End Examples.

Export Examples.

(** ** The remaining handlers of kern/syscall.c that work on the
       environment table, and [ipc_recv] of lib/ipc.c *)

Module SyscallMore.

Definition set_env_pgfault_upcall (func : Z) (e : Env) : Env :=
  mkEnv (env_parent_id e) (env_status e) (env_tf e) (env_pgdir e) func
        (env_ipc_recving e) (env_ipc_dstva e) (env_ipc_value e)
        (env_ipc_from e) (env_ipc_perm e).

(** [sys_getenvid]. *)
Definition sys_getenvid (st : KState) : Z := curenv st.

(** [sys_env_set_pgfault_upcall(envid, func)]. *)
Definition sys_env_set_pgfault_upcall (st : KState) (envid func : Z)
  : retval * KState :=
  match envid2env st envid true with
  | None => (Err E_BAD_ENV, st)
  | Some _ => (Ok 0, update_env st envid (set_env_pgfault_upcall func))
  end.

(** [curenv->env_tf]; as for [cur_pgdir], the running environment is live
    during a system call. *)
Definition cur_tf (st : KState) : Trapframe :=
  match envs st !! curenv st with
  | Some e => env_tf e
  | None => mkTrapframe 0 []
  end.

(** [sys_exofork].  [env_alloc] (kern/env.c) is not among the sources and is
    taken as a parameter: called with the parent's handle it either fails
    with an error code or stores a fresh record and yields its handle. *)
Definition sys_exofork (env_alloc : KState -> Z -> (errno + Z) * KState)
                       (st : KState) : retval * KState :=
  match env_alloc st (curenv st) with
  | (inl _, st1) => (Err E_NO_FREE_ENV, st1)
  | (inr id, st1) =>
      let st2 := update_env st1 id (set_env_status ENV_NOT_RUNNABLE) in
      let st3 := update_env st2 id (set_env_tf (cur_tf st2)) in
      let st4 := update_env st3 id (set_reg_eax 0) in
      (Ok id, st4)
  end.

(** What the handlers above rely on from [env_alloc]: on failure the state
    is as before; on success the handle was not in use, the table gains
    exactly the new record, whose parent is the handle passed, and nothing
    else changes. *)
Definition env_alloc_contract
    (env_alloc : KState -> Z -> (errno + Z) * KState) : Prop :=
  forall st parent,
    match env_alloc st parent with
    | (inl _, st1) => st1 = st
    | (inr id, st1) =>
        envs st !! id = None
        /\ curenv st1 = curenv st /\ phys st1 = phys st
        /\ exists e0, envs st1 = <[id := e0]> (envs st)
                      /\ env_parent_id e0 = parent
    end.

(** Modelled from the spec: one allocator that meets the contract.  The
    table has [NENV] slots; a new environment gets a handle that is not in
    use, starts with an empty address space and cleared IPC fields. *)
Definition NENV : nat := 1024.

Definition env_alloc_fresh (st : KState) (parent : Z) : (errno + Z) * KState :=
  if (NENV <=? size (envs st))%nat then (inl E_NO_FREE_ENV, st)
  else
    let id := fresh (dom (envs st)) in
    (inr id,
     mkKState (<[id := mkEnv parent ENV_RUNNABLE (mkTrapframe 0 [])
                             (mkAddrSpace ∅ ∅) 0 false 0 0 0 0]> (envs st))
              (curenv st) (phys st)).

(** An allocator that has run out of memory. *)
Definition env_alloc_no_mem (st : KState) (parent : Z) : (errno + Z) * KState :=
  (inl E_NO_MEM, st).

(** Modelled from the spec: the scheduler makes [id] the running
    environment; nothing else of the state modelled here changes. *)
Definition env_run (st : KState) (id : Z) : KState :=
  mkKState (envs st) id (phys st).

End SyscallMore.

Export SyscallMore.

Module LibMore.

(** [(int32_t) v] for a 32-bit word [v]. *)
Definition to_int32 (v : Z) : Z :=
  let w := v mod 2 ^ 32 in
  if w <? 2 ^ 31 then w else w - 2 ^ 32.

(** What a call of [ipc_recv] leaves behind: the address it passed to
    [sys_ipc_recv], the value it returned, and what it stored through
    [from_env_store] and [perm_store] ([None] when the pointer is NULL). *)
Record recv_result : Type := mkRecvResult {
  rr_pg : Z;
  rr_ret : retval;
  rr_from : option Z;
  rr_perm : option Z
}.

(** [ipc_recv(from_env_store, pg, perm_store)].  The two booleans say
    whether the store pointers are non-NULL; [r] is the result of
    [sys_ipc_recv] as the caller sees it and [env] its own environment
    record at that moment. *)
Definition ipc_recv (from_env_store : bool) (pg : Z) (perm_store : bool)
                    (r : retval) (env : Env) : recv_result :=
  let pg := if 0 =? pg then UTOP else pg in
  if negative r then
    mkRecvResult pg r
                 (if from_env_store then Some 0 else None)
                 (if perm_store then Some 0 else None)
  else
    mkRecvResult pg (Ok (to_int32 (env_ipc_value env)))
                 (if from_env_store then Some (env_ipc_from env) else None)
                 (if perm_store then Some (env_ipc_perm env) else None).

End LibMore.

Export LibMore.

(** ** More concrete states *)

Module Examples2.

(** Two environments with the same mappings: each maps frame 5 read-only
    at 0x400000 and frame 6 writable at 0x401000. *)
Definition st_siblings : KState :=
  mkKState (<[1 := parent_env]> {[ 2 := parent_env_k ]}) 1 some_phys.

End Examples2.

Export Examples2.

(** ** Leaving the kernel (kern/trap.c, kern/sched.c) *)

Module Trap.



End Trap.

Export Trap.

(** * Properties *)

Section Helpers.

Lemma envid2env_lookup st envid c e :
  envid2env st envid c = Some e -> envs st !! envid = Some e.
Proof.
  unfold envid2env. destruct (envs st !! envid) as [e'|]; [|discriminate].
  repeat case_match; congruence.
Qed.

Lemma envid2env_live st envid c e :
  envid2env st envid c = Some e -> env_status e <> ENV_FREE.
Proof.
  unfold envid2env. destruct (envs st !! envid) as [e'|]; [|discriminate].
  case_bool_decide; [discriminate|]. case_match; congruence.
Qed.

Lemma update_env_lookup st id f :
  envs (update_env st id f) !! id = f <$> envs st !! id.
Proof. unfold update_env; simpl. apply lookup_alter_eq. Qed.

Lemma update_env_lookup_ne st id id' f :
  id <> id' -> envs (update_env st id f) !! id' = envs st !! id'.
Proof. intros. unfold update_env; simpl. by apply lookup_alter_ne. Qed.

Lemma ipc_view_set_env_pgdir pgdir e : ipc_view (set_env_pgdir pgdir e) = ipc_view e.
Proof. reflexivity. Qed.

(** A store to the page directory leaves every view as it was. *)
Lemma update_env_pgdir_view st id pgdir id' :
  ipc_view <$> envs (update_env st id (set_env_pgdir pgdir)) !! id'
  = ipc_view <$> envs st !! id'.
Proof.
  destruct (decide (id = id')) as [->|Hne].
  - rewrite update_env_lookup. by destruct (envs st !! id').
  - by rewrite update_env_lookup_ne.
Qed.

End Helpers.

(** ** No write escalation through a grant *)

Lemma wants_write_comm perm : (PTE_W =? Z.land perm PTE_W) = wants_write perm.
Proof. unfold wants_write. by rewrite Z.land_comm. Qed.

(** [sys_page_map] on resolved handles, asking for write access to a page
    the source does not hold writable. *)
Lemma page_map_no_escalation st srcenvid srcva dstenvid dstva perm srcenv dstenv :
  envid2env st srcenvid true = Some srcenv ->
  envid2env st dstenvid true = Some dstenv ->
  wants_write perm = true ->
  writable_at (env_pgdir srcenv) srcva = false ->
  sys_page_map st srcenvid srcva dstenvid dstva perm = (Err E_INVAL, st).
Proof.
  intros Hs Hd Hw Hro. unfold sys_page_map. rewrite Hs, Hd.
  destruct (_ || _); [done|].
  unfold writable_at in Hro.
  destruct (page_lookup (env_pgdir srcenv) srcva) as [[pag pte]|]; [|done].
  destruct (negb _); [done|].
  fold (wants_write perm). rewrite Hw, Hro. done.
Qed.

(** [sys_ipc_try_send] on its page-transfer branch, asking for write access
    to a page the sender does not hold writable. *)
Lemma ipc_try_send_no_escalation st envid value srcva perm dstenv :
  envid2env st envid false = Some dstenv ->
  waiting dstenv ->
  transfers_page srcva dstenv = true ->
  wants_write perm = true ->
  writable_at (cur_pgdir st) srcva = false ->
  sys_ipc_try_send st envid value srcva perm = (Err E_INVAL, st).
Proof.
  intros Hd [Hst Hrecv] Hpage Hw Hro. unfold sys_ipc_try_send. rewrite Hd.
  rewrite Hst, Hrecv. case_bool_decide; [done|]. cbn [orb negb].
  unfold transfers_page in Hpage. rewrite Hpage.
  destruct (negb (0 =? srcva mod PGSIZE)); [done|].
  unfold writable_at in Hro.
  destruct (page_lookup (cur_pgdir st) srcva) as [[pag pte]|]; [|done].
  destruct (0 =? pte); [done|].
  destruct (negb _); [done|].
  rewrite wants_write_comm, Hw, Hro. done.
Qed.

(** C1.  A grant that asks for the writable bit while the grantor's own
    mapping at the source address is not writable is refused with
    invalid-argument and leaves the kernel state, hence both address
    spaces, exactly as it was: this holds for [sys_page_map] between two
    resolved environments and for [sys_ipc_try_send] whenever the page
    transfer is attempted. *)
Theorem grant_never_escalates_write :
  (forall st srcenvid srcva dstenvid dstva perm srcenv dstenv,
      envid2env st srcenvid true = Some srcenv ->
      envid2env st dstenvid true = Some dstenv ->
      wants_write perm = true ->
      writable_at (env_pgdir srcenv) srcva = false ->
      sys_page_map st srcenvid srcva dstenvid dstva perm = (Err E_INVAL, st))
  /\ (forall st envid value srcva perm dstenv,
      envid2env st envid false = Some dstenv ->
      waiting dstenv ->
      transfers_page srcva dstenv = true ->
      wants_write perm = true ->
      writable_at (cur_pgdir st) srcva = false ->
      sys_ipc_try_send st envid value srcva perm = (Err E_INVAL, st)).
Proof.
  split.
  - apply page_map_no_escalation.
  - apply ipc_try_send_no_escalation.
Qed.

(** The refusal at work: the parent holds 0x400000 read-only and asks to
    map it writable into its child, by [sys_page_map] and by a send. *)
Lemma grant_never_escalates_write_witness :
  sys_page_map st_waiting 1 0x400000 2 0x800000 (Z.lor PTE_P (Z.lor PTE_U PTE_W))
  = (Err E_INVAL, st_waiting)
  /\ sys_ipc_try_send st_waiting 2 42 0x400000 (Z.lor PTE_P (Z.lor PTE_U PTE_W))
     = (Err E_INVAL, st_waiting).
Proof.
  split.
  - apply (proj1 grant_never_escalates_write st_waiting 1 0x400000 2 0x800000
             (Z.lor PTE_P (Z.lor PTE_U PTE_W)) parent_env waiting_child);
      vm_compute; reflexivity.
  - apply (proj2 grant_never_escalates_write st_waiting 2 42 0x400000
             (Z.lor PTE_P (Z.lor PTE_U PTE_W)) waiting_child);
      [vm_compute; reflexivity | split; reflexivity | vm_compute; reflexivity ..].
Defined.

(** ** A successful send wakes the receiver *)

(** What the final stores of a send leave in the receiver's record. *)
Lemma ipc_deliver_fields sender value p e :
  let e' := ipc_deliver sender value p e in
  env_ipc_recving e' = false /\ env_ipc_from e' = sender
  /\ env_ipc_value e' = value /\ env_ipc_perm e' = p
  /\ reg_eax (env_tf e') = 0 /\ env_status e' = ENV_RUNNABLE.
Proof. cbn. repeat split. Qed.

(** A send can only succeed on a receiver that was blocked in receive. *)
Lemma ipc_try_send_ok_inv st envid value srcva perm st' :
  sys_ipc_try_send st envid value srcva perm = (Ok 0, st') ->
  exists dstenv,
    envid2env st envid false = Some dstenv /\ waiting dstenv
    /\ exists pgdir,
        envs st' !! envid
        = Some (ipc_deliver (curenv st) value
                  (if transfers_page srcva dstenv then perm else 0)
                  (set_env_pgdir pgdir dstenv)).
Proof.
  unfold sys_ipc_try_send, transfers_page.
  destruct (envid2env st envid false) as [dstenv|] eqn:Hd; [|discriminate].
  pose proof (envid2env_lookup _ _ _ _ Hd) as Hl.
  destruct (bool_decide (ENV_NOT_RUNNABLE ≠ env_status dstenv)) eqn:Hst;
    [discriminate|].
  destruct (env_ipc_recving dstenv) eqn:Hrecv; [|discriminate]. cbn [orb negb].
  apply bool_decide_eq_false in Hst.
  assert (Hw : waiting dstenv).
  { split; [|done]. destruct (decide (ENV_NOT_RUNNABLE = env_status dstenv)); [done|].
    by destruct Hst. }
  destruct ((srcva <? UTOP) && (env_ipc_dstva dstenv <? UTOP)) eqn:Hp.
  - destruct (negb (0 =? srcva mod PGSIZE)); [discriminate|].
    destruct (page_lookup (cur_pgdir st) srcva) as [[pag pte]|]; [|discriminate].
    destruct (0 =? pte); [discriminate|].
    destruct (negb _); [discriminate|].
    destruct ((PTE_W =? Z.land perm PTE_W) && _); [discriminate|].
    destruct (page_insert _ _ _ _ _) as [[r pm'] pgdir'].
    destruct (nonzero r); [discriminate|].
    intros [= <-]. exists dstenv. split; [done|]. split; [done|].
    exists pgdir'. rewrite !update_env_lookup, Hp. simpl. by rewrite Hl.
  - intros [= <-]. exists dstenv. split; [done|]. split; [done|].
    exists (env_pgdir dstenv). rewrite update_env_lookup, Hl, Hp. simpl.
    by destruct dstenv.
Qed.

(** C2.  Whenever [sys_ipc_try_send] returns 0, the target was
    NOT_RUNNABLE and waiting, and the single call leaves its record with
    [env_ipc_recving] cleared, the sender's handle in [env_ipc_from], the
    message word in [env_ipc_value], [env_ipc_perm] equal to [perm] if the
    page was transferred and 0 otherwise, the saved return-value register
    zero and the status RUNNABLE. *)
Theorem ipc_try_send_success_wakes_target st envid value srcva perm st' :
  sys_ipc_try_send st envid value srcva perm = (Ok 0, st') ->
  exists dstenv dstenv',
    envs st !! envid = Some dstenv
    /\ env_status dstenv = ENV_NOT_RUNNABLE
    /\ env_ipc_recving dstenv = true
    /\ envs st' !! envid = Some dstenv'
    /\ env_ipc_recving dstenv' = false
    /\ env_ipc_from dstenv' = curenv st
    /\ env_ipc_value dstenv' = value
    /\ env_ipc_perm dstenv' = (if transfers_page srcva dstenv then perm else 0)
    /\ reg_eax (env_tf dstenv') = 0
    /\ env_status dstenv' = ENV_RUNNABLE.
Proof.
  intros H. apply ipc_try_send_ok_inv in H as (dstenv & Hd & [Hst Hrecv] & pgdir & Hl').
  eexists dstenv, _. split; [by eapply envid2env_lookup|].
  split; [done|]. split; [done|]. split; [exact Hl'|].
  apply ipc_deliver_fields.
Qed.

(** A send without a page to a blocked receiver always goes through. *)
Lemma ipc_try_send_nopage_succeeds st envid value srcva perm dstenv :
  envid2env st envid false = Some dstenv ->
  waiting dstenv ->
  transfers_page srcva dstenv = false ->
  sys_ipc_try_send st envid value srcva perm
  = (Ok 0, update_env st envid (ipc_deliver (curenv st) value 0)).
Proof.
  intros Hd [Hst Hrecv] Hp. unfold sys_ipc_try_send. rewrite Hd, Hst, Hrecv.
  case_bool_decide; [done|]. cbn [orb negb].
  unfold transfers_page in Hp. by rewrite Hp.
Qed.

(** The parent sends the word 42 and its writable page to the blocked
    child. *)
Lemma ipc_try_send_success_wakes_target_witness :
  exists dstenv dstenv',
    envs st_waiting !! 2 = Some dstenv
    /\ env_status dstenv = ENV_NOT_RUNNABLE
    /\ env_ipc_recving dstenv = true
    /\ envs (snd (sys_ipc_try_send st_waiting 2 42 0x401000 7)) !! 2 = Some dstenv'
    /\ env_ipc_recving dstenv' = false
    /\ env_ipc_from dstenv' = 1
    /\ env_ipc_value dstenv' = 42
    /\ env_ipc_perm dstenv' = (if transfers_page 0x401000 dstenv then 7 else 0)
    /\ reg_eax (env_tf dstenv') = 0
    /\ env_status dstenv' = ENV_RUNNABLE.
Proof.
  apply (ipc_try_send_success_wakes_target st_waiting 2 42 0x401000 7).
  vm_compute. reflexivity.
Defined.

(** ** A failed send is all-or-nothing for the receiver *)

(** The only state a failing send can leave behind differs from the
    initial one by stores to the allocator and to a page directory. *)
Lemma ipc_try_send_err_inv st envid value srcva perm e st' :
  sys_ipc_try_send st envid value srcva perm = (Err e, st') ->
  (st' = st /\ (e = E_BAD_ENV \/ e = E_IPC_NOT_RECV \/ e = E_INVAL))
  \/ (e = E_NO_MEM
      /\ exists pm pgdir, st' = update_env (set_phys st pm) envid (set_env_pgdir pgdir)).
Proof.
  unfold sys_ipc_try_send.
  destruct (envid2env st envid false) as [dstenv|]; [|intros [= <- <-]; auto].
  destruct (_ || _); [intros [= <- <-]; auto|].
  destruct ((srcva <? UTOP) && _); [|discriminate].
  destruct (negb (0 =? srcva mod PGSIZE)); [intros [= <- <-]; auto|].
  destruct (page_lookup (cur_pgdir st) srcva) as [[pag pte]|];
    [|intros [= <- <-]; auto].
  destruct (0 =? pte); [intros [= <- <-]; auto|].
  destruct (negb _); [intros [= <- <-]; auto|].
  destruct ((PTE_W =? Z.land perm PTE_W) && _); [intros [= <- <-]; auto|].
  destruct (page_insert _ _ _ _ _) as [[r pm'] pgdir'].
  destruct (nonzero r); [|discriminate].
  intros [= <- <-]. right. eauto.
Qed.

(** C3.  When [sys_ipc_try_send] fails, for whichever reason (unknown
    handle, receiver not ready, bad source address or permission, no
    memory for the insertion), the IPC fields, the status and the saved
    context of the target, and of every other environment, are what they
    were before the call, and the error is one of the four listed. *)
Theorem ipc_try_send_failure_leaves_target st envid value srcva perm e st' :
  sys_ipc_try_send st envid value srcva perm = (Err e, st') ->
  (forall id, ipc_view <$> envs st' !! id = ipc_view <$> envs st !! id)
  /\ (e = E_BAD_ENV \/ e = E_IPC_NOT_RECV \/ e = E_INVAL \/ e = E_NO_MEM).
Proof.
  intros H. apply ipc_try_send_err_inv in H as [[-> He]|[-> (pm & pgdir & ->)]].
  - split; [done|]. destruct He as [?|[?|?]]; auto.
  - split; [|auto]. intros id. by rewrite update_env_pgdir_view.
Qed.

(** A send to a child that is not waiting: the child's record is
    untouched. *)
Lemma ipc_try_send_failure_leaves_target_witness :
  (forall id,
      ipc_view <$> envs (snd (sys_ipc_try_send st_idle 2 42 UTOP 0)) !! id
      = ipc_view <$> envs st_idle !! id)
  /\ (E_IPC_NOT_RECV = E_BAD_ENV \/ E_IPC_NOT_RECV = E_IPC_NOT_RECV
      \/ E_IPC_NOT_RECV = E_INVAL \/ E_IPC_NOT_RECV = E_NO_MEM).
Proof.
  apply (ipc_try_send_failure_leaves_target st_idle 2 42 UTOP 0 E_IPC_NOT_RECV).
  vm_compute. reflexivity.
Defined.

(** The out-of-memory case is reachable: the child asks for a page in a
    region that has no page table yet, and no frame is free. *)
Example ipc_try_send_no_mem :
  let st := mkKState (<[1 := parent_env]> {[ 2 := waiting_child ]}) 1
                     (mkPhysMem [] ∅) in
  fst (sys_ipc_try_send st 2 42 0x401000 7) = Err E_NO_MEM
  /\ ipc_view <$> envs (snd (sys_ipc_try_send st 2 42 0x401000 7)) !! 2
     = Some (ipc_view waiting_child).
Proof. vm_compute. split; reflexivity. Qed.

(** ** [sys_page_alloc] when the insertion fails *)

Lemma page_insert_fail_unchanged pm pgdir pp va perm r pm' pgdir' :
  page_insert pm pgdir pp va perm = (r, pm', pgdir') ->
  nonzero r = true ->
  pm' = pm /\ pgdir' = pgdir.
Proof.
  unfold page_insert. destruct (pgdir_walk_create pm pgdir va) as [[pm1 pgdir1]|].
  - destruct (page_remove _ _ _) as [pm3 pgdir3]. intros [= <- <- <-]. discriminate.
  - intros [= <- <- <-]. done.
Qed.

Lemma set_env_pgdir_same e : set_env_pgdir (env_pgdir e) e = e.
Proof. by destruct e. Qed.

(** C4.  The handler does not release the frame it acquired when the
    insertion fails: if [page_alloc] handed out frame [pag] and the call
    returns out-of-memory, the state left behind has [pag] off the free
    list, with no reference counted for it and no address space changed,
    so no later allocation can hand it out again. *)
Theorem page_alloc_insert_failure_drops_frame st envid va perm pag pm st' :
  page_alloc (phys st) = Some (pag, pm) ->
  sys_page_alloc st envid va perm = (Err E_NO_MEM, st') ->
  page_free_list (phys st) = pag :: page_free_list (phys st')
  /\ pp_ref (phys st') = pp_ref (phys st)
  /\ envs st' = envs st
  /\ (NoDup (page_free_list (phys st)) -> pag ∉ page_free_list (phys st')).
Proof.
  intros Ha. unfold sys_page_alloc. destruct (_ || _); [discriminate|].
  destruct (envid2env st envid true) as [env|] eqn:He; [|discriminate].
  destruct (negb _); [discriminate|]. rewrite Ha.
  destruct (page_insert _ _ _ _ _) as [[r pm'] pgdir'] eqn:Hi.
  destruct (nonzero r) eqn:Hr; [|discriminate].
  destruct (page_insert_fail_unchanged _ _ _ _ _ _ _ _ Hi Hr) as [-> ->].
  intros [= <-]. cbn [phys update_env set_phys envs].
  unfold page_alloc in Ha. destruct (page_free_list (phys st)) as [|pp rest] eqn:Hf;
    [discriminate|]. injection Ha as <- <-. cbn.
  repeat split.
  - apply map_eq. intros id. destruct (decide (envid = id)) as [<-|Hne].
    + rewrite lookup_alter_eq, (envid2env_lookup _ _ _ _ He). cbn.
      by rewrite set_env_pgdir_same.
    + by rewrite lookup_alter_ne.
  - intros Hnd. by apply NoDup_cons in Hnd as [Hni _].
Qed.

(** The leak on a concrete state: one frame (10) is free, the child has no
    page table for 0x800000.  The handler takes frame 10, the insertion
    cannot allocate the page table, and the call returns out-of-memory
    with the free list empty: frame 10 is neither free nor mapped. *)
Lemma page_alloc_insert_failure_drops_frame_witness :
  let st' := snd (sys_page_alloc st_tight 2 0x800000 (Z.lor PTE_P PTE_U)) in
  page_free_list (phys st_tight) = 10 :: page_free_list (phys st')
  /\ pp_ref (phys st') = pp_ref (phys st_tight)
  /\ envs st' = envs st_tight
  /\ (NoDup (page_free_list (phys st_tight)) -> 10 ∉ page_free_list (phys st')).
Proof.
  apply (page_alloc_insert_failure_drops_frame st_tight 2 0x800000
           (Z.lor PTE_P PTE_U) 10 (mkPhysMem [] (pp_ref tight_phys)));
    vm_compute; reflexivity.
Defined.

(** After the failed call a second allocation finds no frame, although no
    page was mapped in between. *)
Example page_alloc_leak_not_recovered :
  let st' := snd (sys_page_alloc st_tight 2 0x800000 (Z.lor PTE_P PTE_U)) in
  fst (sys_page_alloc st_tight 2 0x800000 (Z.lor PTE_P PTE_U)) = Err E_NO_MEM
  /\ page_alloc (phys st') = None
  /\ ref_of (phys st') 10 = 0%nat.
Proof. vm_compute. repeat split. Qed.

(** ** [sys_env_set_status] validates the wrong word *)

(** The status argument plays no part in the decision: whether the call
    succeeds depends on the status the target already has. *)
Lemma sys_env_set_status_decides_on_target st envid status env :
  envid2env st envid true = Some env ->
  sys_env_set_status st envid status
  = if bool_decide (env_status env = ENV_RUNNABLE \/ env_status env = ENV_NOT_RUNNABLE)
    then (Ok 0, update_env st envid (set_env_status status))
    else (Err E_INVAL, st).
Proof.
  intros He. unfold sys_env_set_status. rewrite He.
  destruct (env_status env); vm_compute; reflexivity.
Qed.

(** C5.  On a target that resolves with authorization, the handler takes
    DYING and FREE as the new status: it returns 0 and writes them, where
    invalid-argument with an unchanged target is required.  And on a
    target that is DYING it refuses RUNNABLE, a valid argument, with
    invalid-argument. *)
Theorem sys_env_set_status_accepts_dying_and_free :
  (fst (sys_env_set_status st_idle 2 ENV_DYING) = Ok 0
   /\ env_status <$> envs (snd (sys_env_set_status st_idle 2 ENV_DYING)) !! 2
      = Some ENV_DYING)
  /\ (fst (sys_env_set_status st_idle 2 ENV_FREE) = Ok 0
      /\ env_status <$> envs (snd (sys_env_set_status st_idle 2 ENV_FREE)) !! 2
         = Some ENV_FREE)
  /\ is_Some (envid2env st_dying 2 true)
  /\ sys_env_set_status st_dying 2 ENV_RUNNABLE = (Err E_INVAL, st_dying).
Proof. vm_compute. repeat split; eauto. Qed.

(** ** Address validation at the boundary *)

(** The test the three memory handlers apply to a page address. *)
Lemma va_test_spec va :
  (UTOP <? va) || negb (va mod PGSIZE =? 0) = false
  <-> va <= UTOP /\ va mod PGSIZE = 0.
Proof.
  rewrite orb_false_iff, negb_false_iff, Z.ltb_ge, Z.eqb_eq. tauto.
Qed.

(** Addresses strictly above the split, and unaligned ones, are refused by
    [sys_page_alloc] and [sys_page_unmap] before anything else happens. *)
Lemma page_alloc_rejects_bad_va st envid va perm :
  UTOP < va \/ va mod PGSIZE <> 0 ->
  sys_page_alloc st envid va perm = (Err E_INVAL, st).
Proof.
  intros H. unfold sys_page_alloc.
  destruct ((UTOP <? va) || negb (0 =? va mod PGSIZE)) eqn:Ht; [done|].
  rewrite Z.eqb_sym in Ht. apply va_test_spec in Ht. lia.
Qed.

Lemma page_unmap_rejects_bad_va st envid va :
  UTOP < va \/ va mod PGSIZE <> 0 ->
  sys_page_unmap st envid va = (Err E_INVAL, st).
Proof.
  intros H. unfold sys_page_unmap.
  destruct ((UTOP <? va) || negb (va mod PGSIZE =? 0)) eqn:Ht; [done|].
  apply va_test_spec in Ht. lia.
Qed.

(** The split itself passes the test, whichever handler applies it. *)
Lemma va_test_accepts_UTOP : (UTOP <? UTOP) || negb (UTOP mod PGSIZE =? 0) = false.
Proof. reflexivity. Qed.

(** C6.  The address [UTOP], which is at the split and therefore to be
    refused, is accepted by all three handlers: [sys_page_alloc] maps a
    fresh frame there and returns 0, [sys_page_map] accepts it as the
    destination and maps the source frame there, and [sys_page_unmap]
    returns 0. *)
Theorem page_handlers_accept_UTOP :
  (fst (sys_page_alloc st_idle 1 UTOP (Z.lor PTE_P PTE_U)) = Ok 0
   /\ (exists e, envs (snd (sys_page_alloc st_idle 1 UTOP (Z.lor PTE_P PTE_U))) !! 1
                 = Some e
                 /\ fst <$> page_lookup (env_pgdir e) UTOP = Some 10))
  /\ (fst (sys_page_map st_idle 1 0x401000 2 UTOP (Z.lor PTE_P PTE_U)) = Ok 0
      /\ (exists e, envs (snd (sys_page_map st_idle 1 0x401000 2 UTOP
                                 (Z.lor PTE_P PTE_U))) !! 2 = Some e
                    /\ fst <$> page_lookup (env_pgdir e) UTOP = Some 6))
  /\ sys_page_unmap st_idle 1 UTOP = (Ok 0, st_idle).
Proof.
  split; [|split].
  - split; [vm_compute; reflexivity|]. eexists. split; vm_compute; reflexivity.
  - split; [vm_compute; reflexivity|]. eexists. split; vm_compute; reflexivity.
  - vm_compute. reflexivity.
Qed.

(** ** Permission validation at the boundary *)

(** What [sys_page_alloc] does refuse: a permission word that lacks the
    present or the user bit. *)
Lemma page_alloc_rejects_missing_PU st envid va perm env :
  envid2env st envid true = Some env ->
  va <= UTOP -> va mod PGSIZE = 0 ->
  Z.land (Z.lor PTE_U PTE_P) perm <> Z.lor PTE_U PTE_P ->
  sys_page_alloc st envid va perm = (Err E_INVAL, st).
Proof.
  intros He Hle Hal Hp. unfold sys_page_alloc.
  assert ((UTOP <? va) || negb (0 =? va mod PGSIZE) = false) as ->.
  { rewrite Z.eqb_sym. by apply va_test_spec. }
  rewrite He.
  destruct (Z.lor PTE_U PTE_P =? Z.land (Z.lor PTE_U PTE_P) perm) eqn:Hb; [|done].
  apply Z.eqb_eq in Hb. congruence.
Qed.

(** C7.  Permission words outside {present, user} plus optional
    {writable} get through: [sys_page_alloc] accepts a word with the
    extra bit 0x100 and stores it in the page-table entry; [sys_page_map]
    and a page-transferring [sys_ipc_try_send] accept the word 0, which
    lacks both mandatory bits.  Each call returns 0 where
    invalid-argument is required. *)
Theorem permission_words_not_validated :
  (fst (sys_page_alloc st_idle 1 0x800000 (Z.lor (Z.lor PTE_P PTE_U) 0x100)) = Ok 0
   /\ (exists e, envs (snd (sys_page_alloc st_idle 1 0x800000
                              (Z.lor (Z.lor PTE_P PTE_U) 0x100))) !! 1 = Some e
                 /\ (fun pte => Z.land pte 0x100) <$> pte_at (env_pgdir e) 0x800000
                    = Some 0x100))
  /\ fst (sys_page_map st_idle 1 0x401000 2 0x800000 0) = Ok 0
  /\ (transfers_page 0x401000 waiting_child = true
      /\ fst (sys_ipc_try_send st_waiting 2 42 0x401000 0) = Ok 0).
Proof.
  split; [|split; [|split]].
  - split; [vm_compute; reflexivity|]. eexists. split; vm_compute; reflexivity.
  - vm_compute. reflexivity.
  - vm_compute. reflexivity.
  - vm_compute. reflexivity.
Qed.

(** ** [sys_ipc_recv] *)

(** With a valid destination the handler records the request in the
    caller's own record and then returns 0 to the dispatcher. *)
Lemma sys_ipc_recv_valid st dstva :
  UTOP <= dstva \/ dstva mod PGSIZE = 0 ->
  sys_ipc_recv st dstva = Returns (Ok 0) (update_env st (curenv st) (recv_record dstva)).
Proof.
  intros H. unfold sys_ipc_recv, recv_record.
  destruct (dstva <? UTOP) eqn:Hlt; [|done].
  apply Z.ltb_lt in Hlt. destruct H as [H|H]; [lia|].
  rewrite H. done.
Qed.

(** An unaligned destination below the split is refused without a
    change. *)
Lemma sys_ipc_recv_invalid st dstva :
  dstva < UTOP -> dstva mod PGSIZE <> 0 ->
  sys_ipc_recv st dstva = Returns (Err E_INVAL) st.
Proof.
  intros Hlt Hal. unfold sys_ipc_recv.
  apply Z.ltb_lt in Hlt. rewrite Hlt.
  destruct (0 =? dstva mod PGSIZE) eqn:Hz; [|done].
  apply Z.eqb_eq in Hz. congruence.
Qed.

(** The handler never enters the scheduler. *)
Lemma sys_ipc_recv_never_yields st dstva st' : sys_ipc_recv st dstva <> Yielded st'.
Proof. unfold sys_ipc_recv. repeat case_match; discriminate. Qed.

(** On its own the handler goes back to the dispatcher: it records the
    request and returns 0, and has no path into the scheduler, which
    [sys_yield] enters directly. *)
Lemma sys_ipc_recv_returns_to_dispatcher :
  (exists st',
      sys_ipc_recv st_idle UTOP = Returns (Ok 0) st'
      /\ ipc_view <$> envs st' !! curenv st_idle
         = Some (mkIpcView true UTOP 0 0 0 ENV_NOT_RUNNABLE tf0))
  /\ (forall st', sys_ipc_recv st_idle UTOP <> Yielded st')
  /\ sys_yield st_idle = Yielded st_idle.
Proof.
  split; [|split].
  - eexists. split; vm_compute; reflexivity.
  - intros st'. apply sys_ipc_recv_never_yields.
  - reflexivity.
Qed.




(** ** [ipc_send] in the user library *)

(** One turn of the loop: any answer other than 0 leads to a yield and
    another attempt. *)
Lemma ipc_send_loop_retry to_env val pg perm r rest :
  nonzero r = true ->
  ipc_send_loop to_env val pg perm (r :: rest)
  = (Call_sys_ipc_try_send to_env val pg perm :: Call_sys_yield
       :: fst (ipc_send_loop to_env val pg perm rest),
     snd (ipc_send_loop to_env val pg perm rest)).
Proof.
  intros Hr. cbn [ipc_send_loop]. rewrite Hr.
  by destruct (ipc_send_loop to_env val pg perm rest).
Qed.

(** The routine has no path to [panic]. *)
Lemma ipc_send_loop_never_panics to_env val pg perm answers :
  snd (ipc_send_loop to_env val pg perm answers) <> Panicked
  /\ Call_panic ∉ fst (ipc_send_loop to_env val pg perm answers).
Proof.
  induction answers as [|r rest [IHe IHc]]; cbn [ipc_send_loop].
  - split; [discriminate|]. cbn. apply not_elem_of_nil.
  - destruct (nonzero r).
    + destruct (ipc_send_loop to_env val pg perm rest) as [calls e]. cbn in *.
      split; [done|]. rewrite !not_elem_of_cons. done.
    + cbn. split; [discriminate|]. rewrite not_elem_of_cons.
      split; [discriminate|apply not_elem_of_nil].
Qed.

(** As long as the kernel answers with errors, of whatever kind, the
    routine stays in its loop. *)
Lemma ipc_send_loop_errors_retry to_env val pg perm answers :
  Forall (fun r => negative r = true) answers ->
  snd (ipc_send_loop to_env val pg perm answers) = Retrying.
Proof.
  induction 1 as [|r rest Hr _ IH]; [done|].
  rewrite ipc_send_loop_retry.
  - exact IH.
  - destruct r as [v|e]; [|done]. cbn in Hr. apply Z.ltb_lt in Hr.
    unfold nonzero. case_bool_decide as Hv; [|done]. injection Hv as ->. lia.
Qed.

(** C9.  The kernel answers a send to a handle that does not exist with
    no-such-environment, then with invalid-argument, then with
    out-of-memory, then with 0.  The routine treats each error like
    receiver-not-ready: it yields and tries again, never panics, and in
    the end returns to its caller. *)
Theorem ipc_send_retries_on_every_error :
  ipc_send 2 42 0 0 [Err E_BAD_ENV; Err E_INVAL; Err E_NO_MEM; Ok 0]
  = ([Call_sys_ipc_try_send 2 42 UTOP 0; Call_sys_yield;
      Call_sys_ipc_try_send 2 42 UTOP 0; Call_sys_yield;
      Call_sys_ipc_try_send 2 42 UTOP 0; Call_sys_yield;
      Call_sys_ipc_try_send 2 42 UTOP 0], Returned)
  /\ (forall n, snd (ipc_send 2 42 0 0 (replicate n (Err E_BAD_ENV))) = Retrying).
Proof.
  split; [reflexivity|].
  intros n. unfold ipc_send. apply ipc_send_loop_errors_retry.
  apply Forall_replicate. reflexivity.
Qed.

(** ** [sys_env_set_trapframe] *)

(** The check the handler asks for is over an empty region, so it passes
    whatever the pointer is: the call never ends in a destroyed
    environment and always installs what it read. *)
Lemma sys_env_set_trapframe_resolved st envid tf tfv env :
  envid2env st envid true = Some env ->
  sys_env_set_trapframe st envid tf tfv
  = Returns (Ok 0) (update_env st envid (set_env_tf tfv)).
Proof. intros He. unfold sys_env_set_trapframe. by rewrite He. Qed.

(** C10.  The caller (environment 1) passes, as the trapframe for its
    child, a pointer into a kernel page that its own address space maps
    without user access.  The region of the frame is not user-readable in
    the caller's address space, yet the handler neither terminates the
    caller nor refuses: it returns 0 and the child's saved context is what
    was read through the pointer. *)
Theorem sys_env_set_trapframe_skips_validation :
  user_mem_check (cur_pgdir st_kernel_page) 0xf0100000 SIZEOF_TRAPFRAME
                 (Z.lor PTE_P PTE_U) = false
  /\ (exists st',
         sys_env_set_trapframe st_kernel_page 2 0xf0100000 tf1 = Returns (Ok 0) st'
         /\ env_tf <$> envs st' !! 2 = Some tf1)
  /\ (forall tf tfv victim st',
         sys_env_set_trapframe st_kernel_page 2 tf tfv <> Destroyed victim st').
Proof.
  split; [vm_compute; reflexivity|]. split.
  - eexists. split; vm_compute; reflexivity.
  - intros tf tfv victim st'.
    rewrite (sys_env_set_trapframe_resolved _ _ _ _ idle_child); [discriminate|].
    vm_compute. reflexivity.
Qed.

(** * Further properties of the handlers *)

(** ** Stores that keep handles resolving *)

Lemma is_descendant_alter f k n (tbl : gmap Z Env) anc id :
  (forall e, env_parent_id (f e) = env_parent_id e) ->
  is_descendant n (alter f k tbl) anc id = is_descendant n tbl anc id.
Proof.
  intros Hf. revert id. induction n as [|n IH]; intros id; [done|].
  cbn [is_descendant]. destruct (decide (k = id)) as [->|Hne].
  - rewrite lookup_alter_eq. destruct (tbl !! id) as [e|]; [|done].
    cbn. by rewrite Hf, IH.
  - rewrite lookup_alter_ne by done. destruct (tbl !! id) as [e|]; [|done].
    by rewrite IH.
Qed.

Lemma size_alter_env f k (tbl : gmap Z Env) : size (alter f k tbl) = size tbl.
Proof. by rewrite <- !size_dom, dom_alter_L. Qed.

(** A store that keeps the parent link and the status of a record does not
    change which handles resolve; the record found is the updated one. *)
Lemma envid2env_update_env st k f envid c :
  (forall e, env_parent_id (f e) = env_parent_id e) ->
  (forall e, env_status (f e) = env_status e) ->
  envid2env (update_env st k f) envid c
  = (if decide (k = envid) then f else id) <$> envid2env st envid c.
Proof.
  intros Hp Hs. unfold envid2env, update_env. cbn [envs curenv].
  rewrite size_alter_env, is_descendant_alter by done.
  destruct (decide (k = envid)) as [->|Hne].
  - rewrite lookup_alter_eq. destruct (envs st !! envid) as [e|]; [|done].
    cbn. rewrite Hs. by repeat case_match.
  - rewrite lookup_alter_ne by done. destruct (envs st !! envid) as [e|]; [|done].
    by repeat case_match.
Qed.

(** ** Handles that do not resolve *)

(** X1.  A caller cannot touch an environment it has no authority over:
    when the handle does not resolve with the permission check, every
    handler that takes the handle as a target fails and leaves the kernel
    state exactly as it was. *)
Theorem unresolved_handle_changes_nothing st envid :
  envid2env st envid true = None ->
  (forall status, sys_env_set_status st envid status = (Err E_BAD_ENV, st))
  /\ (forall tf tfv,
         sys_env_set_trapframe st envid tf tfv = Returns (Err E_BAD_ENV) st)
  /\ (forall func, sys_env_set_pgfault_upcall st envid func = (Err E_BAD_ENV, st))
  /\ (forall va perm,
         sys_page_alloc st envid va perm = (Err E_INVAL, st)
         \/ sys_page_alloc st envid va perm = (Err E_BAD_ENV, st))
  /\ (forall va,
         sys_page_unmap st envid va = (Err E_INVAL, st)
         \/ sys_page_unmap st envid va = (Err E_BAD_ENV, st))
  /\ (forall other srcva dstva perm,
         sys_page_map st envid srcva other dstva perm = (Err E_BAD_ENV, st)
         /\ sys_page_map st other srcva envid dstva perm = (Err E_BAD_ENV, st)).
Proof.
  intros He. repeat split.
  - intros status. unfold sys_env_set_status. by rewrite He.
  - intros tf tfv. unfold sys_env_set_trapframe. by rewrite He.
  - intros func. unfold sys_env_set_pgfault_upcall. by rewrite He.
  - intros va perm. unfold sys_page_alloc. rewrite He.
    destruct (_ || _); auto.
  - intros va. unfold sys_page_unmap. rewrite He. destruct (_ || _); auto.
  - unfold sys_page_map. by rewrite He.
  - unfold sys_page_map. rewrite He. by destruct (envid2env st other true).
Qed.

(** The child (environment 2) is running and names its parent. *)
Lemma unresolved_handle_changes_nothing_witness :
  let st := env_run st_idle 2 in
  (forall status, sys_env_set_status st 1 status = (Err E_BAD_ENV, st))
  /\ (forall tf tfv,
         sys_env_set_trapframe st 1 tf tfv = Returns (Err E_BAD_ENV) st)
  /\ (forall func, sys_env_set_pgfault_upcall st 1 func = (Err E_BAD_ENV, st))
  /\ (forall va perm,
         sys_page_alloc st 1 va perm = (Err E_INVAL, st)
         \/ sys_page_alloc st 1 va perm = (Err E_BAD_ENV, st))
  /\ (forall va,
         sys_page_unmap st 1 va = (Err E_INVAL, st)
         \/ sys_page_unmap st 1 va = (Err E_BAD_ENV, st))
  /\ (forall other srcva dstva perm,
         sys_page_map st 1 srcva other dstva perm = (Err E_BAD_ENV, st)
         /\ sys_page_map st other srcva 1 dstva perm = (Err E_BAD_ENV, st)).
Proof.
  apply (unresolved_handle_changes_nothing (env_run st_idle 2) 1).
  vm_compute. reflexivity.
Defined.

(** ** Errors of the memory handlers *)

Lemma sys_page_alloc_err_inv st envid va perm e st' :
  sys_page_alloc st envid va perm = (Err e, st') ->
  (st' = st /\ (e = E_INVAL \/ e = E_BAD_ENV)) \/ e = E_NO_MEM.
Proof.
  unfold sys_page_alloc.
  destruct (_ || _); [intros [= <- <-]; auto|].
  destruct (envid2env st envid true); [|intros [= <- <-]; auto].
  destruct (negb _); [intros [= <- <-]; auto|].
  destruct (page_alloc (phys st)) as [[pag pm]|]; [|intros [= <- <-]; auto].
  destruct (page_insert _ _ _ _ _) as [[r pm'] pgdir'].
  destruct (nonzero r); [intros [= <- <-]; auto|discriminate].
Qed.

Lemma sys_page_map_err_inv st srcenvid srcva dstenvid dstva perm e st' :
  sys_page_map st srcenvid srcva dstenvid dstva perm = (Err e, st') ->
  (st' = st /\ (e = E_INVAL \/ e = E_BAD_ENV)) \/ e = E_NO_MEM.
Proof.
  unfold sys_page_map.
  destruct (envid2env st srcenvid true) as [srcenv|]; [|intros [= <- <-]; auto].
  destruct (envid2env st dstenvid true) as [dstenv|]; [|intros [= <- <-]; auto].
  destruct (_ || _); [intros [= <- <-]; auto|].
  destruct (page_lookup _ _) as [[pag pte]|]; [|intros [= <- <-]; auto].
  destruct (negb _); [intros [= <- <-]; auto|].
  destruct (_ && _); [intros [= <- <-]; auto|].
  destruct (page_insert _ _ _ _ _) as [[r pm'] pgdir'].
  destruct (nonzero r); [intros [= <- <-]; auto|discriminate].
Qed.

Lemma sys_page_unmap_err_inv st envid va e st' :
  sys_page_unmap st envid va = (Err e, st') ->
  st' = st /\ (e = E_INVAL \/ e = E_BAD_ENV).
Proof.
  unfold sys_page_unmap.
  destruct (_ || _); [intros [= <- <-]; auto|].
  destruct (envid2env st envid true) as [env|]; [|intros [= <- <-]; auto].
  destruct (page_lookup _ _) as [[pag pte]|]; [|discriminate].
  destruct (pte =? 0); discriminate.
Qed.

(** X2.  The memory handlers report only invalid-argument,
    no-such-environment and out-of-memory, and a call that fails with one
    of the first two has changed nothing; [sys_page_unmap] never reports
    out-of-memory. *)
Theorem memory_handlers_fail_cleanly st :
  (forall envid va perm e st',
      sys_page_alloc st envid va perm = (Err e, st') ->
      e <> E_NO_MEM ->
      st' = st /\ (e = E_INVAL \/ e = E_BAD_ENV))
  /\ (forall srcenvid srcva dstenvid dstva perm e st',
         sys_page_map st srcenvid srcva dstenvid dstva perm = (Err e, st') ->
         e <> E_NO_MEM ->
         st' = st /\ (e = E_INVAL \/ e = E_BAD_ENV))
  /\ (forall envid va e st',
         sys_page_unmap st envid va = (Err e, st') ->
         st' = st /\ (e = E_INVAL \/ e = E_BAD_ENV)).
Proof.
  split; [|split].
  - intros envid va perm e st' H Hne.
    by apply sys_page_alloc_err_inv in H as [?|?].
  - intros srcenvid srcva dstenvid dstva perm e st' H Hne.
    by apply sys_page_map_err_inv in H as [?|?].
  - intros envid va e st' H. by apply sys_page_unmap_err_inv in H.
Qed.

(** An unaligned address for [sys_page_alloc], an unmapped source for
    [sys_page_map] and an address above the split for [sys_page_unmap]. *)
Lemma memory_handlers_fail_cleanly_witness :
  (snd (sys_page_alloc st_idle 1 0x800001 5) = st_idle
   /\ (E_INVAL = E_INVAL \/ E_INVAL = E_BAD_ENV))
  /\ (snd (sys_page_map st_idle 1 0x900000 2 0x800000 5) = st_idle
      /\ (E_INVAL = E_INVAL \/ E_INVAL = E_BAD_ENV))
  /\ (snd (sys_page_unmap st_idle 1 0xf0000000) = st_idle
      /\ (E_INVAL = E_INVAL \/ E_INVAL = E_BAD_ENV)).
Proof.
  split; [|split].
  - apply (proj1 (memory_handlers_fail_cleanly st_idle) 1 0x800001 5 E_INVAL);
      [vm_compute; reflexivity | discriminate].
  - apply (proj1 (proj2 (memory_handlers_fail_cleanly st_idle))
             1 0x900000 2 0x800000 5 E_INVAL);
      [vm_compute; reflexivity | discriminate].
  - apply (proj2 (proj2 (memory_handlers_fail_cleanly st_idle)) 1 0xf0000000 E_INVAL).
    vm_compute. reflexivity.
Defined.

(** ** What a successful grant presupposes *)

(** X3.  [sys_page_map] only ever grants a page that the source
    environment itself can reach from user mode: when the call returns 0,
    both handles resolved with authorization, both addresses are
    page-aligned and not above [UTOP], the source address has a mapping
    that carries the present and the user bit, and write access was asked
    for only if that mapping is writable. *)
Theorem sys_page_map_success_source st srcenvid srcva dstenvid dstva perm st' :
  sys_page_map st srcenvid srcva dstenvid dstva perm = (Ok 0, st') ->
  exists srcenv dstenv pag pte,
    envid2env st srcenvid true = Some srcenv
    /\ envid2env st dstenvid true = Some dstenv
    /\ (srcva <= UTOP /\ srcva mod PGSIZE = 0)
    /\ (dstva <= UTOP /\ dstva mod PGSIZE = 0)
    /\ page_lookup (env_pgdir srcenv) srcva = Some (pag, pte)
    /\ Z.land (Z.lor PTE_U PTE_P) pte = Z.lor PTE_P PTE_U
    /\ (wants_write perm = true -> writable_at (env_pgdir srcenv) srcva = true).
Proof.
  unfold sys_page_map.
  destruct (envid2env st srcenvid true) as [srcenv|]; [|discriminate].
  destruct (envid2env st dstenvid true) as [dstenv|]; [|discriminate].
  destruct ((UTOP <? srcva) || negb (srcva mod PGSIZE =? 0)
            || (UTOP <? dstva) || negb (dstva mod PGSIZE =? 0)) eqn:Hva;
    [discriminate|].
  destruct (page_lookup (env_pgdir srcenv) srcva) as [[pag pte]|] eqn:Hl;
    [|discriminate].
  destruct (Z.lor PTE_P PTE_U =? Z.land (Z.lor PTE_U PTE_P) pte) eqn:Hpu;
    [|discriminate]. cbn [negb].
  destruct ((PTE_W =? Z.land PTE_W perm) && negb (PTE_W =? Z.land PTE_W pte)) eqn:Hw;
    [discriminate|].
  intros _. exists srcenv, dstenv, pag, pte.
  rewrite <- orb_assoc in Hva. apply orb_false_iff in Hva as [Hs Hd].
  apply va_test_spec in Hs, Hd. apply Z.eqb_eq in Hpu.
  repeat split; try tauto; try done.
  unfold wants_write, writable_at. rewrite Hl. intros Hww.
  rewrite Hww in Hw. cbn in Hw. by apply negb_false_iff in Hw.
Qed.

(** The parent maps its writable page, writable, into its child. *)
Lemma sys_page_map_success_source_witness :
  exists srcenv dstenv pag pte,
    envid2env st_idle 1 true = Some srcenv
    /\ envid2env st_idle 2 true = Some dstenv
    /\ (0x401000 <= UTOP /\ 0x401000 mod PGSIZE = 0)
    /\ (0x800000 <= UTOP /\ 0x800000 mod PGSIZE = 0)
    /\ page_lookup (env_pgdir srcenv) 0x401000 = Some (pag, pte)
    /\ Z.land (Z.lor PTE_U PTE_P) pte = Z.lor PTE_P PTE_U
    /\ (wants_write 7 = true -> writable_at (env_pgdir srcenv) 0x401000 = true).
Proof.
  apply (sys_page_map_success_source st_idle 1 0x401000 2 0x800000 7
           (snd (sys_page_map st_idle 1 0x401000 2 0x800000 7))).
  vm_compute. reflexivity.
Defined.

(** X4.  [sys_ipc_try_send] hands over a page only from the sender's own
    user-accessible memory: when a send that takes the page-transfer
    branch returns 0, the source address is page-aligned and the sender's
    address space maps it with the present and the user bit, writable if
    write access was asked for. *)
Theorem sys_ipc_try_send_page_source st envid value srcva perm st' dstenv :
  sys_ipc_try_send st envid value srcva perm = (Ok 0, st') ->
  envid2env st envid false = Some dstenv ->
  transfers_page srcva dstenv = true ->
  exists pag pte,
    srcva mod PGSIZE = 0
    /\ page_lookup (cur_pgdir st) srcva = Some (pag, pte)
    /\ Z.land (Z.lor PTE_U PTE_P) pte = Z.lor PTE_U PTE_P
    /\ (wants_write perm = true -> writable_at (cur_pgdir st) srcva = true).
Proof.
  unfold sys_ipc_try_send, transfers_page. intros H Hd Hp. rewrite Hd in H.
  destruct (_ || _); [discriminate|]. rewrite Hp in H.
  destruct (0 =? srcva mod PGSIZE) eqn:Hal; [|discriminate]. cbn [negb] in H.
  destruct (page_lookup (cur_pgdir st) srcva) as [[pag pte]|] eqn:Hl;
    [|discriminate].
  destruct (0 =? pte); [discriminate|].
  destruct (Z.lor PTE_U PTE_P =? Z.land (Z.lor PTE_U PTE_P) pte) eqn:Hpu;
    [|discriminate]. cbn [negb] in H.
  destruct ((PTE_W =? Z.land perm PTE_W) && negb (PTE_W =? Z.land PTE_W pte)) eqn:Hw;
    [discriminate|].
  exists pag, pte. apply Z.eqb_eq in Hal, Hpu.
  repeat split; try done.
  unfold writable_at. rewrite Hl. intros Hww.
  rewrite wants_write_comm, Hww in Hw. cbn in Hw. by apply negb_false_iff in Hw.
Qed.

Lemma sys_ipc_try_send_page_source_witness :
  exists pag pte,
    0x401000 mod PGSIZE = 0
    /\ page_lookup (cur_pgdir st_waiting) 0x401000 = Some (pag, pte)
    /\ Z.land (Z.lor PTE_U PTE_P) pte = Z.lor PTE_U PTE_P
    /\ (wants_write 7 = true -> writable_at (cur_pgdir st_waiting) 0x401000 = true).
Proof.
  apply (sys_ipc_try_send_page_source st_waiting 2 42 0x401000 7
           (snd (sys_ipc_try_send st_waiting 2 42 0x401000 7)) waiting_child);
    vm_compute; reflexivity.
Defined.

(** ** [sys_page_unmap] *)

Lemma page_lookup_pte_nonzero pgdir va pag pte :
  page_lookup pgdir va = Some (pag, pte) -> pte <> 0.
Proof.
  unfold page_lookup. destruct (pte_at pgdir va) as [p|]; [|discriminate].
  destruct (Z.land p PTE_P =? 0) eqn:Hp; [discriminate|].
  intros [= _ <-] ->. by rewrite Z.land_0_l in Hp.
Qed.

Lemma page_lookup_cleared pgdir va : page_lookup (pte_store pgdir va 0) va = None.
Proof.
  unfold page_lookup, pte_at, pte_store. cbn [pt_entries].
  by rewrite lookup_insert_eq.
Qed.

Lemma envid2env_set_phys st pm envid c :
  envid2env (set_phys st pm) envid c = envid2env st envid c.
Proof. reflexivity. Qed.

(** The three ways a call of [sys_page_unmap] can end. *)
Lemma sys_page_unmap_cases st envid va r st' :
  sys_page_unmap st envid va = (r, st') ->
  (st' = st /\ (r = Err E_INVAL \/ r = Err E_BAD_ENV))
  \/ (r = Ok 0 /\ st' = st
      /\ exists env, envid2env st envid true = Some env
                     /\ page_lookup (env_pgdir env) va = None)
  \/ (r = Ok 0
      /\ exists env pag pte,
          envid2env st envid true = Some env
          /\ page_lookup (env_pgdir env) va = Some (pag, pte)
          /\ st' = update_env (set_phys st (page_decref (phys st) pag)) envid
                              (set_env_pgdir (pte_store (env_pgdir env) va 0))).
Proof.
  unfold sys_page_unmap.
  destruct (_ || _); [intros [= <- <-]; auto|].
  destruct (envid2env st envid true) as [env|] eqn:He; [|intros [= <- <-]; auto].
  destruct (page_lookup (env_pgdir env) va) as [[pag pte]|] eqn:Hl.
  - destruct (pte =? 0) eqn:Hz.
    + apply Z.eqb_eq in Hz. by apply page_lookup_pte_nonzero in Hl.
    + intros [= <- <-]. right. right. split; [done|]. by exists env, pag, pte.
  - intros [= <- <-]. right. left. eauto.
Qed.

(** X5.  Unmapping is idempotent: repeating a call of [sys_page_unmap]
    on the state it left gives the same result and changes nothing
    more. *)
Theorem sys_page_unmap_idempotent st envid va :
  sys_page_unmap (snd (sys_page_unmap st envid va)) envid va
  = (fst (sys_page_unmap st envid va), snd (sys_page_unmap st envid va)).
Proof.
  destruct (sys_page_unmap st envid va) as [r st'] eqn:H. cbn [fst snd].
  pose proof H as Hc. apply sys_page_unmap_cases in Hc
    as [[-> _]|[(-> & -> & _)|(-> & env & pag & pte & He & Hl & ->)]]; try done.
  unfold sys_page_unmap in H |- *.
  destruct (_ || _); [discriminate|].
  rewrite envid2env_update_env, envid2env_set_phys, He by done.
  rewrite decide_True by done. cbn [fmap option_fmap option_map set_env_pgdir env_pgdir].
  by rewrite page_lookup_cleared.
Qed.

(** X6.  A successful [sys_page_unmap] leaves nothing mapped at the
    address in the target, and removes nothing else: the entries of every
    other page of the target, the rest of the target's record and every
    other environment are as before. *)
Theorem sys_page_unmap_removes_the_page st envid va st' :
  sys_page_unmap st envid va = (Ok 0, st') ->
  exists env env',
    envid2env st envid true = Some env
    /\ envs st' !! envid = Some env'
    /\ page_lookup (env_pgdir env') va = None
    /\ (forall va', VPN va' <> VPN va ->
                    pte_at (env_pgdir env') va' = pte_at (env_pgdir env) va')
    /\ ipc_view env' = ipc_view env
    /\ (forall id, id <> envid -> envs st' !! id = envs st !! id).
Proof.
  intros H. apply sys_page_unmap_cases in H
    as [[_ [?|?]]|[(_ & -> & env & He & Hl)|(_ & env & pag & pte & He & Hl & ->)]];
    try discriminate.
  - exists env, env. repeat split; try done. by eapply envid2env_lookup.
  - exists env, (set_env_pgdir (pte_store (env_pgdir env) va 0) env).
    split; [done|]. split.
    { rewrite update_env_lookup. cbn [set_phys envs].
      by rewrite (envid2env_lookup _ _ _ _ He). }
    split; [apply page_lookup_cleared|]. split.
    { intros va' Hne. unfold pte_at. cbn. by rewrite lookup_insert_ne. }
    split; [done|].
    intros id Hne. by rewrite update_env_lookup_ne.
Qed.

(** The parent unmaps its page at 0x401000. *)
Lemma sys_page_unmap_removes_the_page_witness :
  exists env env',
    envid2env st_idle 1 true = Some env
    /\ envs (snd (sys_page_unmap st_idle 1 0x401000)) !! 1 = Some env'
    /\ page_lookup (env_pgdir env') 0x401000 = None
    /\ (forall va', VPN va' <> VPN 0x401000 ->
                    pte_at (env_pgdir env') va' = pte_at (env_pgdir env) va')
    /\ ipc_view env' = ipc_view env
    /\ (forall id, id <> 1 ->
                   envs (snd (sys_page_unmap st_idle 1 0x401000)) !! id
                   = envs st_idle !! id).
Proof.
  apply (sys_page_unmap_removes_the_page st_idle 1 0x401000).
  vm_compute. reflexivity.
Defined.

(** ** The rendezvous *)

(** X7.  A receive is satisfied by at most one send: once
    [sys_ipc_try_send] has returned 0, any further send to the same
    target, by whichever environment and with whatever arguments, fails
    with receiver-not-ready and changes nothing. *)
Theorem sys_ipc_try_send_at_most_once st envid value srcva perm st' :
  sys_ipc_try_send st envid value srcva perm = (Ok 0, st') ->
  forall sender value2 srcva2 perm2,
    sys_ipc_try_send (env_run st' sender) envid value2 srcva2 perm2
    = (Err E_IPC_NOT_RECV, env_run st' sender).
Proof.
  intros H sender value2 srcva2 perm2.
  apply ipc_try_send_ok_inv in H as (dstenv & _ & _ & pgdir & Hl').
  unfold sys_ipc_try_send, envid2env. cbn [env_run envs]. rewrite Hl'.
  done.
Qed.

Lemma sys_ipc_try_send_at_most_once_witness :
  sys_ipc_try_send (env_run (snd (sys_ipc_try_send st_waiting 2 42 0x401000 7)) 1)
                   2 43 UTOP 0
  = (Err E_IPC_NOT_RECV,
     env_run (snd (sys_ipc_try_send st_waiting 2 42 0x401000 7)) 1).
Proof.
  apply (sys_ipc_try_send_at_most_once st_waiting 2 42 0x401000 7).
  vm_compute. reflexivity.
Defined.

(** X8.  What [sys_ipc_recv] can leave behind.  It either refuses with
    invalid-argument and changes nothing, or returns 0 having touched only
    the caller's own record: the destination it recorded is page-aligned
    and not above [UTOP], and equals [UTOP] exactly when the word passed
    was not below it; the caller is marked receiving and NOT_RUNNABLE; the
    allocator, the running environment and every other record are as
    before. *)
Theorem sys_ipc_recv_effect st dstva :
  sys_ipc_recv st dstva = Returns (Err E_INVAL) st
  \/ exists st',
      sys_ipc_recv st dstva = Returns (Ok 0) st'
      /\ phys st' = phys st /\ curenv st' = curenv st
      /\ (forall id, id <> curenv st -> envs st' !! id = envs st !! id)
      /\ (forall e, envs st !! curenv st = Some e ->
            exists e', envs st' !! curenv st = Some e'
              /\ env_ipc_recving e' = true
              /\ env_status e' = ENV_NOT_RUNNABLE
              /\ env_ipc_dstva e' <= UTOP
              /\ env_ipc_dstva e' mod PGSIZE = 0
              /\ (env_ipc_dstva e' = UTOP <-> UTOP <= dstva)
              /\ (dstva < UTOP -> env_ipc_dstva e' = dstva)
              /\ env_pgdir e' = env_pgdir e /\ env_tf e' = env_tf e).
Proof.
  destruct (decide (dstva < UTOP /\ dstva mod PGSIZE <> 0)) as [[Hlt Hal]|Hv].
  - left. by apply sys_ipc_recv_invalid.
  - right. eexists. split; [apply sys_ipc_recv_valid; lia|].
    split; [done|]. split; [done|]. split.
    { intros id Hne. by rewrite update_env_lookup_ne. }
    intros e He. eexists. split; [by rewrite update_env_lookup, He|].
    cbn. destruct (dstva <? UTOP) eqn:Hlt.
    + apply Z.ltb_lt in Hlt. repeat split; try lia; done.
    + apply Z.ltb_ge in Hlt. repeat split; try lia; done.
Qed.

(** X9.  When the page-transfer branch is not taken (the sender offers no
    page or the receiver asked for none), a send to a waiting receiver
    always succeeds, whatever [srcva] and [perm] are: they are never
    inspected.  No frame is touched and no address space changes; the
    receiver's record gets permission 0 and is otherwise as delivered. *)
Theorem sys_ipc_try_send_without_page st envid value srcva perm dstenv :
  envid2env st envid false = Some dstenv ->
  waiting dstenv ->
  transfers_page srcva dstenv = false ->
  exists st',
    sys_ipc_try_send st envid value srcva perm = (Ok 0, st')
    /\ phys st' = phys st
    /\ (forall id, env_pgdir <$> envs st' !! id = env_pgdir <$> envs st !! id)
    /\ envs st' !! envid = Some (ipc_deliver (curenv st) value 0 dstenv).
Proof.
  intros Hd Hw Hp. eexists. split; [by eapply ipc_try_send_nopage_succeeds|].
  split; [done|]. split.
  - intros id. destruct (decide (envid = id)) as [<-|Hne].
    + rewrite update_env_lookup. by destruct (envs st !! envid).
    + by rewrite update_env_lookup_ne.
  - by rewrite update_env_lookup, (envid2env_lookup _ _ _ _ Hd).
Qed.

(** The receiver asked for no page; the sender offers an unaligned,
    unmapped address with a meaningless permission word. *)
Lemma sys_ipc_try_send_without_page_witness :
  exists st',
    sys_ipc_try_send st_waiting_nopage 2 42 0x123 0xfff = (Ok 0, st')
    /\ phys st' = phys st_waiting_nopage
    /\ (forall id, env_pgdir <$> envs st' !! id
                   = env_pgdir <$> envs st_waiting_nopage !! id)
    /\ envs st' !! 2 = Some (ipc_deliver (curenv st_waiting_nopage) 42 0 waiting_child_nopage).
Proof.
  apply (sys_ipc_try_send_without_page st_waiting_nopage 2 42 0x123 0xfff
           waiting_child_nopage);
    [vm_compute; reflexivity | split; reflexivity | vm_compute; reflexivity].
Defined.

(** X10.  Receive, then send: after the running environment has called
    [sys_ipc_recv] with a valid destination, a send of a word without a
    page by any environment goes through at the first attempt, and the
    receiver's record then holds the word, the sender's handle and
    permission 0, is RUNNABLE, and has 0 in the saved return-value
    register; its address space is untouched. *)
Theorem recv_then_send_delivers st dstva sender value srcva perm e :
  envs st !! curenv st = Some e ->
  UTOP <= dstva \/ dstva mod PGSIZE = 0 ->
  UTOP <= srcva \/ UTOP <= dstva ->
  exists st1 st2 e2,
    sys_ipc_recv st dstva = Returns (Ok 0) st1
    /\ sys_ipc_try_send (env_run st1 sender) (curenv st) value srcva perm = (Ok 0, st2)
    /\ envs st2 !! curenv st = Some e2
    /\ env_ipc_value e2 = value
    /\ env_ipc_from e2 = sender
    /\ env_ipc_perm e2 = 0
    /\ env_ipc_recving e2 = false
    /\ env_status e2 = ENV_RUNNABLE
    /\ reg_eax (env_tf e2) = 0
    /\ env_pgdir e2 = env_pgdir e.
Proof.
  intros He Hd Hs.
  pose (e1 := recv_record dstva e).
  assert (Hr : envid2env (env_run (update_env st (curenv st) (recv_record dstva)) sender)
                         (curenv st) false = Some e1).
  { unfold envid2env. cbn [env_run envs update_env].
    by rewrite lookup_alter_eq, He. }
  assert (Hp : transfers_page srcva e1 = false).
  { unfold transfers_page, e1. cbn.
    destruct (dstva <? UTOP) eqn:Hlt.
    - apply Z.ltb_lt in Hlt. destruct Hs as [Hs|Hs]; [|lia].
      apply Z.ltb_ge in Hs. by rewrite Hs.
    - by rewrite andb_false_r. }
  eexists _, _, (ipc_deliver sender value 0 e1).
  split; [by apply sys_ipc_recv_valid|].
  split; [by apply (ipc_try_send_nopage_succeeds _ _ _ _ _ e1)|].
  split.
  { rewrite update_env_lookup. cbn [env_run envs update_env].
    by rewrite lookup_alter_eq, He. }
  repeat split.
Qed.

(** The parent asks to receive without a page; its child sends 42. *)
Lemma recv_then_send_delivers_witness :
  exists st1 st2 e2,
    sys_ipc_recv st_idle UTOP = Returns (Ok 0) st1
    /\ sys_ipc_try_send (env_run st1 2) (curenv st_idle) 42 UTOP 0 = (Ok 0, st2)
    /\ envs st2 !! curenv st_idle = Some e2
    /\ env_ipc_value e2 = 42
    /\ env_ipc_from e2 = 2
    /\ env_ipc_perm e2 = 0
    /\ env_ipc_recving e2 = false
    /\ env_status e2 = ENV_RUNNABLE
    /\ reg_eax (env_tf e2) = 0
    /\ env_pgdir e2 = env_pgdir parent_env.
Proof.
  apply (recv_then_send_delivers st_idle UTOP 2 42 UTOP 0 parent_env);
    [vm_compute; reflexivity | left; reflexivity | left; reflexivity].
Defined.

(** ** The memory handlers and the scheduler-visible state *)

(** X11.  Whatever they return, [sys_page_alloc], [sys_page_map] and
    [sys_page_unmap] leave the IPC fields, the status and the saved
    context of every environment as they were, and do not change which
    environment is running: a memory grant can neither wake nor block
    anyone. *)
Theorem memory_handlers_keep_views st id :
  (forall envid va perm,
      ipc_view <$> envs (snd (sys_page_alloc st envid va perm)) !! id
      = ipc_view <$> envs st !! id
      /\ curenv (snd (sys_page_alloc st envid va perm)) = curenv st)
  /\ (forall srcenvid srcva dstenvid dstva perm,
         ipc_view <$> envs (snd (sys_page_map st srcenvid srcva dstenvid dstva perm)) !! id
         = ipc_view <$> envs st !! id
         /\ curenv (snd (sys_page_map st srcenvid srcva dstenvid dstva perm)) = curenv st)
  /\ (forall envid va,
         ipc_view <$> envs (snd (sys_page_unmap st envid va)) !! id
         = ipc_view <$> envs st !! id
         /\ curenv (snd (sys_page_unmap st envid va)) = curenv st).
Proof.
  split; [|split].
  - intros envid va perm. unfold sys_page_alloc.
    destruct (_ || _); [done|].
    destruct (envid2env st envid true); [|done].
    destruct (negb _); [done|].
    destruct (page_alloc (phys st)) as [[pag pm]|]; [|done].
    destruct (page_insert _ _ _ _ _) as [[r pm'] pgdir'].
    destruct (nonzero r); cbn [snd]; by rewrite update_env_pgdir_view.
  - intros srcenvid srcva dstenvid dstva perm. unfold sys_page_map.
    destruct (envid2env st srcenvid true); [|done].
    destruct (envid2env st dstenvid true); [|done].
    destruct (_ || _); [done|].
    destruct (page_lookup _ _) as [[pag pte]|]; [|done].
    destruct (negb _); [done|].
    destruct (_ && _); [done|].
    destruct (page_insert _ _ _ _ _) as [[r pm'] pgdir'].
    destruct (nonzero r); cbn [snd]; by rewrite update_env_pgdir_view.
  - intros envid va. unfold sys_page_unmap.
    destruct (_ || _); [done|].
    destruct (envid2env st envid true); [|done].
    destruct (page_lookup _ _) as [[pag pte]|]; [|done].
    destruct (pte =? 0); [done|]. cbn [snd]. by rewrite update_env_pgdir_view.
Qed.

(** ** [ipc_send] *)

(** X12.  [ipc_send] stops at the first answer 0 and at no other: with
    [k] non-zero answers before it, the routine issues [k] times a send
    followed by a yield, then one last send, and returns; later answers
    are not consumed.  Every send carries the same handle, word and
    permission, and the page address with NULL replaced by [UTOP], so the
    address 0 never reaches the kernel. *)
Theorem ipc_send_until_first_zero to_env val pg perm fails rest :
  Forall (fun r => r <> Ok 0) fails ->
  ipc_send to_env val pg perm (fails ++ Ok 0 :: rest)
  = (mjoin (replicate (length fails)
              [Call_sys_ipc_try_send to_env val (if 0 =? pg then UTOP else pg) perm;
               Call_sys_yield])
       ++ [Call_sys_ipc_try_send to_env val (if 0 =? pg then UTOP else pg) perm],
     Returned).
Proof.
  unfold ipc_send. generalize (if 0 =? pg then UTOP else pg). intros pg'.
  induction 1 as [|r fails Hr _ IH]; [done|].
  cbn [app length replicate]. rewrite ipc_send_loop_retry.
  - by rewrite IH.
  - unfold nonzero. by rewrite bool_decide_eq_false_2.
Qed.

Lemma ipc_send_until_first_zero_witness :
  ipc_send 2 42 0 7 ([Err E_IPC_NOT_RECV; Err E_IPC_NOT_RECV] ++ Ok 0 :: [Err E_INVAL])
  = (mjoin (replicate 2 [Call_sys_ipc_try_send 2 42 UTOP 7; Call_sys_yield])
       ++ [Call_sys_ipc_try_send 2 42 UTOP 7],
     Returned).
Proof.
  apply (ipc_send_until_first_zero 2 42 0 7 [Err E_IPC_NOT_RECV; Err E_IPC_NOT_RECV]
           [Err E_INVAL]).
  repeat constructor; discriminate.
Defined.

(** X13.  [ipc_send] returns to its caller exactly when one of the
    kernel's answers is 0; otherwise it is still retrying when the
    answers run out. *)
Theorem ipc_send_returns_iff to_env val pg perm answers :
  (snd (ipc_send to_env val pg perm answers) = Returned
   <-> Exists (fun r => r = Ok 0) answers)
  /\ (snd (ipc_send to_env val pg perm answers) = Retrying
      <-> Forall (fun r => r <> Ok 0) answers).
Proof.
  unfold ipc_send. generalize (if 0 =? pg then UTOP else pg). intros pg'.
  induction answers as [|r rest [IHr IHf]].
  - cbn. split; split; try done. by intros ?%Exists_nil.
  - cbn [ipc_send_loop]. unfold nonzero. rewrite Exists_cons, Forall_cons.
    case_bool_decide as Hr; cbn [negb].
    + cbn. split; split; try done; tauto.
    + destruct (ipc_send_loop to_env val pg' perm rest) as [calls e]. cbn in *.
      rewrite IHr, IHf. tauto.
Qed.

(** ** [ipc_recv] *)

Lemma to_int32_small v : 0 <= v < 2 ^ 31 -> to_int32 v = v.
Proof.
  intros Hv. unfold to_int32. rewrite Z.mod_small by lia.
  destruct (v <? 2 ^ 31) eqn:Hlt; [done|]. apply Z.ltb_ge in Hlt. lia.
Qed.

Lemma to_int32_large v : 2 ^ 31 <= v < 2 ^ 32 -> to_int32 v = v - 2 ^ 32.
Proof.
  intros Hv. unfold to_int32. rewrite Z.mod_small by lia.
  destruct (v <? 2 ^ 31) eqn:Hlt; [|done]. apply Z.ltb_lt in Hlt. lia.
Qed.

(** X14.  [ipc_recv] returns the received word as a signed number: a
    word below 2^31 comes back as it is, but a successfully received word
    with the top bit set comes back negative, which a caller cannot tell
    from an error by the sign of the result; the sender and the
    permission are stored all the same. *)
Theorem ipc_recv_value_sign from_env_store pg perm_store r env :
  negative r = false ->
  0 <= env_ipc_value env < 2 ^ 32 ->
  let res := ipc_recv from_env_store pg perm_store r env in
  (env_ipc_value env < 2 ^ 31 -> rr_ret res = Ok (env_ipc_value env))
  /\ (2 ^ 31 <= env_ipc_value env ->
      rr_ret res = Ok (env_ipc_value env - 2 ^ 32) /\ negative (rr_ret res) = true)
  /\ rr_from res = (if from_env_store then Some (env_ipc_from env) else None)
  /\ rr_perm res = (if perm_store then Some (env_ipc_perm env) else None).
Proof.
  intros Hr Hv. unfold ipc_recv. rewrite Hr. cbn.
  split; [|split; [|done]].
  - intros Hlt. by rewrite to_int32_small by lia.
  - intros Hge. rewrite to_int32_large by lia. split; [done|].
    cbn. apply Z.ltb_lt. lia.
Qed.

(** The word 0x80000000 arrives and is reported as a negative number. *)
Lemma ipc_recv_value_sign_witness :
  let env := set_env_ipc_value 0x80000000 parent_env in
  let res := ipc_recv true 0 true (Ok 0) env in
  (env_ipc_value env < 2 ^ 31 -> rr_ret res = Ok (env_ipc_value env))
  /\ (2 ^ 31 <= env_ipc_value env ->
      rr_ret res = Ok (env_ipc_value env - 2 ^ 32) /\ negative (rr_ret res) = true)
  /\ rr_from res = Some (env_ipc_from env)
  /\ rr_perm res = Some (env_ipc_perm env).
Proof.
  apply (ipc_recv_value_sign true 0 true (Ok 0)
           (set_env_ipc_value 0x80000000 parent_env)).
  - reflexivity.
  - cbn. lia.
Defined.

(** X15.  A full round trip through the kernel.  The running environment
    calls [ipc_recv], which passes [pg] (or [UTOP] for NULL) to
    [sys_ipc_recv]; some sender's [sys_ipc_try_send] then returns 0.  When
    the receiver resumes with its saved return-value register as the
    result of the call, [ipc_recv] returns the word that was sent and
    stores the sender's handle, and the permission sent if a page went
    across and 0 if not. *)
Theorem ipc_round_trip st pg sender value srcva perm st1 st2 e2 :
  let pg' := if 0 =? pg then UTOP else pg in
  is_Some (envs st !! curenv st) ->
  sys_ipc_recv st pg' = Returns (Ok 0) st1 ->
  sys_ipc_try_send (env_run st1 sender) (curenv st) value srcva perm = (Ok 0, st2) ->
  envs st2 !! curenv st = Some e2 ->
  0 <= value < 2 ^ 31 ->
  ipc_recv true pg true (Ok (reg_eax (env_tf e2))) e2
  = mkRecvResult pg' (Ok value) (Some sender)
                 (Some (if (srcva <? UTOP) && (pg' <? UTOP) then perm else 0)).
Proof.
  intros pg' [e He] Hrecv Hsend He2 Hv.
  assert (Hvalid : UTOP <= pg' \/ pg' mod PGSIZE = 0).
  { destruct (decide (pg' < UTOP /\ pg' mod PGSIZE <> 0)) as [[? ?]|?]; [|lia].
    rewrite sys_ipc_recv_invalid in Hrecv by done. discriminate. }
  rewrite sys_ipc_recv_valid in Hrecv by done. injection Hrecv as <-.
  apply ipc_try_send_ok_inv in Hsend as (dstenv & Hd & _ & pgdir & Hl').
  unfold envid2env in Hd. cbn [env_run envs update_env] in Hd.
  rewrite lookup_alter_eq, He in Hd. cbn in Hd. injection Hd as <-.
  rewrite He2 in Hl'. injection Hl' as ->.
  unfold ipc_recv. fold pg'. cbn.
  rewrite to_int32_small by lia.
  unfold transfers_page. cbn.
  destruct (pg' <? UTOP) eqn:Hlt; [by rewrite Hlt|].
  by rewrite ?Z.ltb_irrefl, !andb_false_r.
Qed.

(** The parent receives at 0x800000; its child sends 42 with the page it
    maps at 0x401000. *)
Lemma ipc_round_trip_witness :
  exists e2,
    envs (snd (sys_ipc_try_send
                 (env_run (update_env st_siblings 1 (recv_record 0x800000)) 2)
                 1 42 0x401000 7)) !! 1 = Some e2
    /\ ipc_recv true 0x800000 true (Ok (reg_eax (env_tf e2))) e2
       = mkRecvResult 0x800000 (Ok 42) (Some 2) (Some 7).
Proof.
  eexists. split; [vm_compute; reflexivity|].
  apply (ipc_round_trip st_siblings 0x800000 2 42 0x401000 7
           (update_env st_siblings 1 (recv_record 0x800000))
           (snd (sys_ipc_try_send
                   (env_run (update_env st_siblings 1 (recv_record 0x800000)) 2)
                   1 42 0x401000 7))).
  - vm_compute. eauto.
  - vm_compute. reflexivity.
  - vm_compute. reflexivity.
  - vm_compute. reflexivity.
  - lia.
Defined.

(** ** [sys_exofork] *)

Lemma env_alloc_fresh_contract : env_alloc_contract env_alloc_fresh.
Proof.
  intros st parent. unfold env_alloc_fresh.
  destruct (NENV <=? size (envs st))%nat; [done|].
  split; [|eauto].
  apply not_elem_of_dom. apply is_fresh.
Qed.

Lemma env_alloc_no_mem_contract : env_alloc_contract env_alloc_no_mem.
Proof. by intros st parent. Qed.

(** What [sys_exofork] does on top of an allocator that keeps its
    contract. *)
Lemma sys_exofork_inv env_alloc st p :
  env_alloc_contract env_alloc ->
  envs st !! curenv st = Some p ->
  (exists e, sys_exofork env_alloc st = (Err E_NO_FREE_ENV, st)
             /\ fst (env_alloc st (curenv st)) = inl e)
  \/ (exists id e0,
         envs st !! id = None /\ env_parent_id e0 = curenv st
         /\ sys_exofork env_alloc st
            = (Ok id,
               mkKState (<[id := set_reg_eax 0
                                   (set_env_tf (env_tf p)
                                      (set_env_status ENV_NOT_RUNNABLE e0))]> (envs st))
                        (curenv st) (phys st))).
Proof.
  intros Hc Hp. specialize (Hc st (curenv st)). unfold sys_exofork.
  destruct (env_alloc st (curenv st)) as [[e|id] st1].
  - left. subst st1. eauto.
  - right. destruct Hc as (Hfresh & Hcur & Hphys & e0 & Henvs & Hpar).
    exists id, e0. split; [done|]. split; [done|].
    assert (Hne : id <> curenv st) by (intros ->; congruence).
    f_equal. unfold update_env, cur_tf. cbn [envs curenv phys].
    rewrite Hcur, Hphys, Henvs. f_equal.
    rewrite !alter_insert_eq.
    rewrite lookup_insert_ne by done. by rewrite Hp.
Qed.

Lemma envid2env_child st id child :
  envs st !! id = Some child ->
  env_parent_id child = curenv st ->
  env_status child <> ENV_FREE ->
  envid2env st id true = Some child.
Proof.
  intros Hl Hpar Hst. unfold envid2env. rewrite Hl.
  rewrite bool_decide_eq_false_2 by done.
  destruct (size (envs st)) as [|n] eqn:Hsz.
  { apply map_size_empty_iff in Hsz. rewrite Hsz in Hl. by rewrite lookup_empty in Hl. }
  cbn [is_descendant]. rewrite Hl, Hpar, Z.eqb_refl. cbn.
  by rewrite orb_true_r.
Qed.

(** X16.  [sys_exofork] over an allocator that keeps its contract.  If
    the allocator fails, with whatever error (out-of-memory included),
    the call reports no-free-environment and changes nothing.  Otherwise
    it returns the handle of a record that was not in the table before:
    a child of the caller, NOT_RUNNABLE, whose saved context is the
    caller's with the return-value register set to 0; the caller can
    address it with authorization, and nothing else has changed. *)
Theorem sys_exofork_child env_alloc st p :
  env_alloc_contract env_alloc ->
  envs st !! curenv st = Some p ->
  (sys_exofork env_alloc st = (Err E_NO_FREE_ENV, st)
   /\ exists e, fst (env_alloc st (curenv st)) = inl e)
  \/ exists id child st',
      sys_exofork env_alloc st = (Ok id, st')
      /\ envs st !! id = None
      /\ envs st' = <[id := child]> (envs st)
      /\ curenv st' = curenv st /\ phys st' = phys st
      /\ env_parent_id child = curenv st
      /\ env_status child = ENV_NOT_RUNNABLE
      /\ reg_eax (env_tf child) = 0
      /\ tf_others (env_tf child) = tf_others (env_tf p)
      /\ envid2env st' id true = Some child.
Proof.
  intros Hc Hp.
  destruct (sys_exofork_inv env_alloc st p Hc Hp)
    as [(e & H & He)|(id & e0 & Hfresh & Hpar & H)].
  - left. eauto.
  - right. eexists id, _, _. split; [exact H|].
    repeat split; try done.
    apply envid2env_child; cbn; try done. by rewrite lookup_insert_eq.
Qed.

(** The parent forks on a table with room, and on an allocator that is
    out of memory. *)
Lemma sys_exofork_child_witness :
  ((sys_exofork env_alloc_fresh st_idle = (Err E_NO_FREE_ENV, st_idle)
    /\ exists e, fst (env_alloc_fresh st_idle (curenv st_idle)) = inl e)
   \/ exists id child st',
       sys_exofork env_alloc_fresh st_idle = (Ok id, st')
       /\ envs st_idle !! id = None
       /\ envs st' = <[id := child]> (envs st_idle)
       /\ curenv st' = curenv st_idle /\ phys st' = phys st_idle
       /\ env_parent_id child = curenv st_idle
       /\ env_status child = ENV_NOT_RUNNABLE
       /\ reg_eax (env_tf child) = 0
       /\ tf_others (env_tf child) = tf_others (env_tf parent_env)
       /\ envid2env st' id true = Some child)
  /\ sys_exofork env_alloc_no_mem st_idle = (Err E_NO_FREE_ENV, st_idle).
Proof.
  split.
  - apply (sys_exofork_child env_alloc_fresh st_idle parent_env
             env_alloc_fresh_contract).
    vm_compute. reflexivity.
  - destruct (sys_exofork_child env_alloc_no_mem st_idle parent_env
                env_alloc_no_mem_contract eq_refl)
      as [[H _]|(id & child & st' & H & _)]; [exact H|discriminate H].
Defined.

(** X17.  Fork, then start the child: after a successful
    [sys_exofork] the parent's [sys_env_set_status] with RUNNABLE on the
    new handle returns 0, and the child is then RUNNABLE with the
    parent's saved context except for a 0 in the return-value register,
    so that it will see the fork return 0; the parent's record is as it
    was before the fork. *)
Theorem exofork_then_set_runnable env_alloc st p id st' :
  env_alloc_contract env_alloc ->
  envs st !! curenv st = Some p ->
  sys_exofork env_alloc st = (Ok id, st') ->
  exists st'' child,
    sys_env_set_status st' id ENV_RUNNABLE = (Ok 0, st'')
    /\ envs st'' !! id = Some child
    /\ env_status child = ENV_RUNNABLE
    /\ env_tf child = mkTrapframe 0 (tf_others (env_tf p))
    /\ envs st'' !! curenv st = Some p.
Proof.
  intros Hc Hp H.
  destruct (sys_exofork_inv env_alloc st p Hc Hp)
    as [(e & H' & _)|(id' & e0 & Hfresh & Hpar & H')];
    rewrite H' in H; [discriminate|]. injection H as <- <-.
  assert (Hne : id' <> curenv st) by (intros ->; congruence).
  set (child := set_reg_eax 0 (set_env_tf (env_tf p)
                                 (set_env_status ENV_NOT_RUNNABLE e0))).
  set (st' := mkKState (<[id' := child]> (envs st)) (curenv st) (phys st)).
  assert (He : envid2env st' id' true = Some child).
  { apply envid2env_child; cbn; try done. by rewrite lookup_insert_eq. }
  eexists _, (set_env_status ENV_RUNNABLE child).
  split; [by rewrite (sys_env_set_status_decides_on_target _ _ _ child)|].
  split; [by rewrite update_env_lookup; cbn; rewrite lookup_insert_eq|].
  split; [done|]. split; [done|].
  rewrite update_env_lookup_ne by done. cbn. by rewrite lookup_insert_ne.
Qed.

Lemma exofork_then_set_runnable_witness :
  exists st'' child,
    sys_env_set_status (snd (sys_exofork env_alloc_fresh st_idle))
                       (fresh (dom (envs st_idle))) ENV_RUNNABLE = (Ok 0, st'')
    /\ envs st'' !! fresh (dom (envs st_idle)) = Some child
    /\ env_status child = ENV_RUNNABLE
    /\ env_tf child = mkTrapframe 0 (tf_others (env_tf parent_env))
    /\ envs st'' !! curenv st_idle = Some parent_env.
Proof.
  apply (exofork_then_set_runnable env_alloc_fresh st_idle parent_env
           (fresh (dom (envs st_idle))) (snd (sys_exofork env_alloc_fresh st_idle))
           env_alloc_fresh_contract).
  - vm_compute. reflexivity.
  - reflexivity.
Defined.

(** ** Grants alias frames *)

(** The frame and the present bit can be read back from an entry built
    from a permission word that stays within the page offset. *)
Lemma pte_frame pp perm :
  0 <= perm < PGSIZE ->
  pa2page (Z.lor (Z.lor (page2pa pp) perm) PTE_P) = pp.
Proof.
  intros Hperm. unfold pa2page, page2pa, PGSIZE, PTE_P in *.
  change 4096 with (2 ^ 12).
  rewrite <- Z.shiftr_div_pow2, <- Z.shiftl_mul_pow2 by lia.
  rewrite !Z.shiftr_lor, Z.shiftr_shiftl_l by lia.
  rewrite (Z.shiftr_div_pow2 perm), (Z.div_small perm) by lia.
  change (Z.shiftr 1 12) with 0. rewrite !Z.lor_0_r. cbn. apply Z.shiftl_0_r.
Qed.

Lemma pte_present x : Z.land (Z.lor x PTE_P) PTE_P <> 0.
Proof.
  unfold PTE_P. rewrite Z.land_lor_distr_l. change (Z.land 1 1) with 1.
  intros H. apply Z.lor_eq_0_iff in H as [_ H]. discriminate.
Qed.

(** An insertion that succeeds can be looked up again. *)
Lemma page_insert_lookup pm pgdir pp va perm pm' pgdir' :
  page_insert pm pgdir pp va perm = (Ok 0, pm', pgdir') ->
  0 <= perm < PGSIZE ->
  page_lookup pgdir' va = Some (pp, Z.lor (Z.lor (page2pa pp) perm) PTE_P).
Proof.
  unfold page_insert.
  destruct (pgdir_walk_create pm pgdir va) as [[pm1 pgdir1]|]; [|discriminate].
  destruct (page_remove _ _ _) as [pm3 pgdir3]. intros [= <- <-] Hperm.
  unfold page_lookup, pte_at, pte_store. cbn [pt_entries].
  rewrite lookup_insert_eq.
  destruct (Z.land _ PTE_P =? 0) eqn:Hp.
  - apply Z.eqb_eq in Hp. by apply pte_present in Hp.
  - by rewrite pte_frame.
Qed.

Lemma page_lookup_frame pgdir va pag pte :
  page_lookup pgdir va = Some (pag, pte) -> pag = pa2page pte.
Proof.
  unfold page_lookup. destruct (pte_at pgdir va) as [p|]; [|discriminate].
  destruct (Z.land p PTE_P =? 0); [discriminate|]. by intros [= <- <-].
Qed.

(** X18.  A successful [sys_page_alloc] with a permission word inside
    the page offset maps, at [va] in the target, the frame that headed
    the free list, with the permission asked for and the present bit. *)
Theorem sys_page_alloc_maps_head_frame st envid va perm st' :
  sys_page_alloc st envid va perm = (Ok 0, st') ->
  0 <= perm < PGSIZE ->
  exists pag rest env',
    page_free_list (phys st) = pag :: rest
    /\ envs st' !! envid = Some env'
    /\ page_lookup (env_pgdir env') va
       = Some (pag, Z.lor (Z.lor (page2pa pag) perm) PTE_P).
Proof.
  unfold sys_page_alloc. intros H Hperm.
  destruct (_ || _); [discriminate|].
  destruct (envid2env st envid true) as [env|] eqn:He; [|discriminate].
  destruct (negb _); [discriminate|].
  unfold page_alloc in H.
  destruct (page_free_list (phys st)) as [|pag rest]; [discriminate|].
  destruct (page_insert _ _ _ _ _) as [[r pm'] pgdir'] eqn:Hi.
  destruct r as [v|e]; [|discriminate].
  destruct (decide (v = 0)) as [->|Hv].
  - injection H as <-. exists pag, rest, (set_env_pgdir pgdir' env).
    split; [done|]. split.
    + rewrite update_env_lookup. cbn [set_phys envs].
      by rewrite (envid2env_lookup _ _ _ _ He).
    + by apply (page_insert_lookup _ _ _ _ _ _ _ Hi).
  - unfold nonzero in H. rewrite bool_decide_eq_false_2 in H by congruence.
    discriminate.
Qed.

Lemma sys_page_alloc_maps_head_frame_witness :
  exists pag rest env',
    page_free_list (phys st_idle) = pag :: rest
    /\ envs (snd (sys_page_alloc st_idle 2 0x800000 7)) !! 2 = Some env'
    /\ page_lookup (env_pgdir env') 0x800000
       = Some (pag, Z.lor (Z.lor (page2pa pag) 7) PTE_P).
Proof.
  apply (sys_page_alloc_maps_head_frame st_idle 2 0x800000 7).
  - vm_compute. reflexivity.
  - vm_compute. split; [discriminate|reflexivity].
Defined.

(** X19.  A successful [sys_page_map] with a permission word inside the
    page offset makes the destination address in the destination
    environment name the very frame the source address names in the
    source environment. *)
Theorem sys_page_map_aliases_frame st srcenvid srcva dstenvid dstva perm st' :
  sys_page_map st srcenvid srcva dstenvid dstva perm = (Ok 0, st') ->
  0 <= perm < PGSIZE ->
  exists srcenv dstenv' pag,
    envid2env st srcenvid true = Some srcenv
    /\ fst <$> page_lookup (env_pgdir srcenv) srcva = Some pag
    /\ envs st' !! dstenvid = Some dstenv'
    /\ fst <$> page_lookup (env_pgdir dstenv') dstva = Some pag.
Proof.
  unfold sys_page_map. intros H Hperm.
  destruct (envid2env st srcenvid true) as [srcenv|] eqn:Hs; [|discriminate].
  destruct (envid2env st dstenvid true) as [dstenv|] eqn:Hd; [|discriminate].
  destruct (_ || _); [discriminate|].
  destruct (page_lookup (env_pgdir srcenv) srcva) as [[pag pte]|] eqn:Hl;
    [|discriminate].
  destruct (negb _); [discriminate|].
  destruct (_ && _); [discriminate|].
  destruct (page_insert _ _ _ _ _) as [[r pm'] pgdir'] eqn:Hi.
  destruct r as [v|e]; [|discriminate].
  destruct (decide (v = 0)) as [->|Hv].
  - injection H as <-. exists srcenv, (set_env_pgdir pgdir' dstenv), pag.
    split; [done|]. split; [by rewrite Hl|]. split.
    + rewrite update_env_lookup. cbn [set_phys envs].
      by rewrite (envid2env_lookup _ _ _ _ Hd).
    + cbn [set_env_pgdir env_pgdir].
      by rewrite (page_insert_lookup _ _ _ _ _ _ _ Hi).
  - unfold nonzero in H. rewrite bool_decide_eq_false_2 in H by congruence.
    discriminate.
Qed.

Lemma sys_page_map_aliases_frame_witness :
  exists srcenv dstenv' pag,
    envid2env st_idle 1 true = Some srcenv
    /\ fst <$> page_lookup (env_pgdir srcenv) 0x400000 = Some pag
    /\ envs (snd (sys_page_map st_idle 1 0x400000 2 0x800000 5)) !! 2 = Some dstenv'
    /\ fst <$> page_lookup (env_pgdir dstenv') 0x800000 = Some pag.
Proof.
  apply (sys_page_map_aliases_frame st_idle 1 0x400000 2 0x800000 5).
  - vm_compute. reflexivity.
  - vm_compute. split; [discriminate|reflexivity].
Defined.

(** X20.  When a send that takes the page-transfer branch returns 0 (the
    permission word being inside the page offset), the address the
    receiver asked for names, in the receiver's address space, the very
    frame the sender's source address names in the sender's. *)
Theorem sys_ipc_try_send_aliases_frame st envid value srcva perm st' dstenv :
  sys_ipc_try_send st envid value srcva perm = (Ok 0, st') ->
  envid2env st envid false = Some dstenv ->
  transfers_page srcva dstenv = true ->
  0 <= perm < PGSIZE ->
  exists dstenv' pag,
    fst <$> page_lookup (cur_pgdir st) srcva = Some pag
    /\ envs st' !! envid = Some dstenv'
    /\ fst <$> page_lookup (env_pgdir dstenv') (env_ipc_dstva dstenv) = Some pag
    /\ env_ipc_perm dstenv' = perm.
Proof.
  unfold sys_ipc_try_send, transfers_page. intros H Hd Hp Hperm. rewrite Hd in H.
  destruct (_ || _); [discriminate|]. rewrite Hp in H.
  destruct (negb (0 =? srcva mod PGSIZE)); [discriminate|].
  destruct (page_lookup (cur_pgdir st) srcva) as [[pag pte]|] eqn:Hl;
    [|discriminate].
  destruct (0 =? pte); [discriminate|].
  destruct (negb _); [discriminate|].
  destruct ((PTE_W =? Z.land perm PTE_W) && _); [discriminate|].
  destruct (page_insert _ _ _ _ _) as [[r pm'] pgdir'] eqn:Hi.
  destruct r as [v|e]; [|discriminate].
  destruct (decide (v = 0)) as [->|Hv].
  - injection H as <-.
    exists (ipc_deliver (curenv st) value perm (set_env_pgdir pgdir' dstenv)), pag.
    split; [done|]. split.
    + rewrite !update_env_lookup. cbn [set_phys envs].
      by rewrite (envid2env_lookup _ _ _ _ Hd).
    + cbn. by rewrite (page_insert_lookup _ _ _ _ _ _ _ Hi).
  - unfold nonzero in H. rewrite bool_decide_eq_false_2 in H by congruence.
    discriminate.
Qed.

Lemma sys_ipc_try_send_aliases_frame_witness :
  exists dstenv' pag,
    fst <$> page_lookup (cur_pgdir st_waiting) 0x401000 = Some pag
    /\ envs (snd (sys_ipc_try_send st_waiting 2 42 0x401000 7)) !! 2 = Some dstenv'
    /\ fst <$> page_lookup (env_pgdir dstenv') (env_ipc_dstva waiting_child) = Some pag
    /\ env_ipc_perm dstenv' = 7.
Proof.
  apply (sys_ipc_try_send_aliases_frame st_waiting 2 42 0x401000 7
           (snd (sys_ipc_try_send st_waiting 2 42 0x401000 7)) waiting_child).
  - vm_compute. reflexivity.
  - vm_compute. reflexivity.
  - vm_compute. reflexivity.
  - vm_compute. split; [discriminate|reflexivity].
Defined.
